(** * The manager entry point of cluster-api (main.go)

    A shallow embedding of [main.go]: flag definitions and parsing, the
    construction of the controller-runtime manager, the registration of
    health checks, reconcilers and webhooks, and the split-client factory.

    Everything that main.go calls in other packages (controller-runtime, the
    reconcilers, the API types, klog, strconv, net/http) is outside the file;
    the results of those calls are read from a [World], so every theorem
    holds whatever those packages answer. *)

From Stdlib Require Import ZArith List Ascii String Bool Lia.
Import ListNotations.
Local Open Scope string_scope.
Local Open Scope Z_scope.

(** ** Values of the imported packages *)

(** A Go [error] value, identified by its message. *)
Definition error := string.

(** The API packages imported by main.go. *)
Inductive APIVersion := clusterv1alpha2 | clusterv1alpha3.

(** The scheme builders that [init] adds to [scheme]. *)
Inductive SchemeBuilder :=
| clientgoscheme
| clusterScheme (v : APIVersion).

(** The Go types on which main.go calls [SetupWebhookWithManager]. *)
Inductive APIType :=
| Cluster | ClusterList
| Machine | MachineList
| MachineSet | MachineSetList
| MachineDeployment | MachineDeploymentList
| MachinePool.

(** [rest.Config], [client.Options] and [cache.Cache] are handles here. *)
Record restConfig := { Host : string }.
Record clientOptions := { optScheme : list SchemeBuilder }.
Inductive cacheCache := InformerCache (id : nat).

(** The value [client.New config options] returns when it succeeds: a client
    that talks directly to the API server named by [config]. *)
Inductive directClient := DirectClient (config : restConfig) (options : clientOptions).

(** controller-runtime's interfaces [client.Reader], [client.Writer] and
    [client.StatusClient], as the values of this program that implement
    them: a cache and a direct client both read, only a direct client writes. *)
Inductive clientReader :=
| ReaderOfCache (c : cacheCache)
| ReaderOfClient (c : directClient).
Inductive clientWriter := WriterOfClient (c : directClient).
Inductive clientStatusClient := StatusOfClient (c : directClient).

(** [client.DelegatingClient]: a struct that embeds the three interfaces, so
    each method of [client.Client] is the method of one embedded field. *)
Record DelegatingClient := {
  Reader : clientReader;
  Writer : clientWriter;
  StatusClient : clientStatusClient }.

(** The methods of [client.Client]. *)
Inductive Operation :=
| Get | List
| Create | Delete | Update | Patch | DeleteAllOf
| StatusUpdate | StatusPatch.

Inductive OperationClass := ReadOp | WriteOp | StatusOp.

Definition classOf (op : Operation) : OperationClass :=
  match op with
  | Get | List => ReadOp
  | Create | Delete | Update | Patch | DeleteAllOf => WriteOp
  | StatusUpdate | StatusPatch => StatusOp
  end.

(** Where an operation ends up. *)
Inductive Backend :=
| ServedByCache (c : cacheCache)
| ServedByStore (c : directClient).

(** Method promotion of the embedded fields of a [DelegatingClient]. *)
Definition serve (dc : DelegatingClient) (op : Operation) : Backend :=
  match classOf op with
  | ReadOp =>
      match Reader dc with
      | ReaderOfCache c => ServedByCache c
      | ReaderOfClient c => ServedByStore c
      end
  | WriteOp => let 'WriterOfClient c := Writer dc in ServedByStore c
  | StatusOp => let 'StatusOfClient c := StatusClient dc in ServedByStore c
  end.

(** [controller.Options]; main.go sets one field, the others keep their zero
    value. *)
Record controllerOptions := { MaxConcurrentReconciles : Z }.

(** The type of [ctrl.Options.NewClient]. *)
Definition NewClientFunc : Type :=
  cacheCache -> restConfig -> clientOptions -> DelegatingClient + error.

(** [ctrl.Options], with the fields main.go sets. [SyncPeriod] is a pointer
    to a [time.Duration], a number of nanoseconds. *)
Record ctrlOptions := {
  Scheme : list SchemeBuilder;
  MetricsBindAddress : string;
  LeaderElection : bool;
  LeaderElectionID : string;
  Namespace : string;
  SyncPeriod : option Z;
  NewClient : NewClientFunc;
  Port : Z;
  HealthProbeBindAddress : string }.

(** A [ctrl.Manager], identified by what it was built from. *)
Record Manager := { mgrConfig : restConfig; mgrOptions : ctrlOptions }.

(** The result of [mgr.GetClient()]. *)
Inductive managerClient := GetClient (mgr : Manager).

Inductive Checker := healthz_Ping.

(** The five reconciler types of package [controllers]. *)
Inductive ReconcilerKind :=
| ClusterReconciler
| MachineReconciler
| MachineSetReconciler
| MachineDeploymentReconciler
| MachinePoolReconciler.

(** A reconciler value as main.go builds it: its type, its [Client] field
    and the names of its [Log] field. *)
Record Reconciler := {
  kind : ReconcilerKind;
  Client : managerClient;
  Log : list string }.

(** ** The package-level variables *)

(** The flag variables of main.go. An [int] is a [Z]: the program does no
    arithmetic on them. [syncPeriod] counts nanoseconds. *)
Record Flags := {
  metricsAddr : string;
  enableLeaderElection : bool;
  watchNamespace : string;
  profilerAddress : string;
  clusterConcurrency : Z;
  machineConcurrency : Z;
  machineSetConcurrency : Z;
  machineDeploymentConcurrency : Z;
  machinePoolConcurrency : Z;
  syncPeriod : Z;
  webhookPort : Z;
  healthAddr : string }.

(** Assignments through the pointers [&metricsAddr], ... *)
Definition set_metricsAddr (v : string) (f : Flags) : Flags :=
  {| metricsAddr := v; enableLeaderElection := enableLeaderElection f;
     watchNamespace := watchNamespace f; profilerAddress := profilerAddress f;
     clusterConcurrency := clusterConcurrency f; machineConcurrency := machineConcurrency f;
     machineSetConcurrency := machineSetConcurrency f;
     machineDeploymentConcurrency := machineDeploymentConcurrency f;
     machinePoolConcurrency := machinePoolConcurrency f; syncPeriod := syncPeriod f;
     webhookPort := webhookPort f; healthAddr := healthAddr f |}.
Definition set_enableLeaderElection (v : bool) (f : Flags) : Flags :=
  {| metricsAddr := metricsAddr f; enableLeaderElection := v;
     watchNamespace := watchNamespace f; profilerAddress := profilerAddress f;
     clusterConcurrency := clusterConcurrency f; machineConcurrency := machineConcurrency f;
     machineSetConcurrency := machineSetConcurrency f;
     machineDeploymentConcurrency := machineDeploymentConcurrency f;
     machinePoolConcurrency := machinePoolConcurrency f; syncPeriod := syncPeriod f;
     webhookPort := webhookPort f; healthAddr := healthAddr f |}.
Definition set_watchNamespace (v : string) (f : Flags) : Flags :=
  {| metricsAddr := metricsAddr f; enableLeaderElection := enableLeaderElection f;
     watchNamespace := v; profilerAddress := profilerAddress f;
     clusterConcurrency := clusterConcurrency f; machineConcurrency := machineConcurrency f;
     machineSetConcurrency := machineSetConcurrency f;
     machineDeploymentConcurrency := machineDeploymentConcurrency f;
     machinePoolConcurrency := machinePoolConcurrency f; syncPeriod := syncPeriod f;
     webhookPort := webhookPort f; healthAddr := healthAddr f |}.
Definition set_profilerAddress (v : string) (f : Flags) : Flags :=
  {| metricsAddr := metricsAddr f; enableLeaderElection := enableLeaderElection f;
     watchNamespace := watchNamespace f; profilerAddress := v;
     clusterConcurrency := clusterConcurrency f; machineConcurrency := machineConcurrency f;
     machineSetConcurrency := machineSetConcurrency f;
     machineDeploymentConcurrency := machineDeploymentConcurrency f;
     machinePoolConcurrency := machinePoolConcurrency f; syncPeriod := syncPeriod f;
     webhookPort := webhookPort f; healthAddr := healthAddr f |}.
Definition set_clusterConcurrency (v : Z) (f : Flags) : Flags :=
  {| metricsAddr := metricsAddr f; enableLeaderElection := enableLeaderElection f;
     watchNamespace := watchNamespace f; profilerAddress := profilerAddress f;
     clusterConcurrency := v; machineConcurrency := machineConcurrency f;
     machineSetConcurrency := machineSetConcurrency f;
     machineDeploymentConcurrency := machineDeploymentConcurrency f;
     machinePoolConcurrency := machinePoolConcurrency f; syncPeriod := syncPeriod f;
     webhookPort := webhookPort f; healthAddr := healthAddr f |}.
Definition set_machineConcurrency (v : Z) (f : Flags) : Flags :=
  {| metricsAddr := metricsAddr f; enableLeaderElection := enableLeaderElection f;
     watchNamespace := watchNamespace f; profilerAddress := profilerAddress f;
     clusterConcurrency := clusterConcurrency f; machineConcurrency := v;
     machineSetConcurrency := machineSetConcurrency f;
     machineDeploymentConcurrency := machineDeploymentConcurrency f;
     machinePoolConcurrency := machinePoolConcurrency f; syncPeriod := syncPeriod f;
     webhookPort := webhookPort f; healthAddr := healthAddr f |}.
Definition set_machineSetConcurrency (v : Z) (f : Flags) : Flags :=
  {| metricsAddr := metricsAddr f; enableLeaderElection := enableLeaderElection f;
     watchNamespace := watchNamespace f; profilerAddress := profilerAddress f;
     clusterConcurrency := clusterConcurrency f; machineConcurrency := machineConcurrency f;
     machineSetConcurrency := v;
     machineDeploymentConcurrency := machineDeploymentConcurrency f;
     machinePoolConcurrency := machinePoolConcurrency f; syncPeriod := syncPeriod f;
     webhookPort := webhookPort f; healthAddr := healthAddr f |}.
Definition set_machineDeploymentConcurrency (v : Z) (f : Flags) : Flags :=
  {| metricsAddr := metricsAddr f; enableLeaderElection := enableLeaderElection f;
     watchNamespace := watchNamespace f; profilerAddress := profilerAddress f;
     clusterConcurrency := clusterConcurrency f; machineConcurrency := machineConcurrency f;
     machineSetConcurrency := machineSetConcurrency f;
     machineDeploymentConcurrency := v;
     machinePoolConcurrency := machinePoolConcurrency f; syncPeriod := syncPeriod f;
     webhookPort := webhookPort f; healthAddr := healthAddr f |}.
Definition set_machinePoolConcurrency (v : Z) (f : Flags) : Flags :=
  {| metricsAddr := metricsAddr f; enableLeaderElection := enableLeaderElection f;
     watchNamespace := watchNamespace f; profilerAddress := profilerAddress f;
     clusterConcurrency := clusterConcurrency f; machineConcurrency := machineConcurrency f;
     machineSetConcurrency := machineSetConcurrency f;
     machineDeploymentConcurrency := machineDeploymentConcurrency f;
     machinePoolConcurrency := v; syncPeriod := syncPeriod f;
     webhookPort := webhookPort f; healthAddr := healthAddr f |}.
Definition set_syncPeriod (v : Z) (f : Flags) : Flags :=
  {| metricsAddr := metricsAddr f; enableLeaderElection := enableLeaderElection f;
     watchNamespace := watchNamespace f; profilerAddress := profilerAddress f;
     clusterConcurrency := clusterConcurrency f; machineConcurrency := machineConcurrency f;
     machineSetConcurrency := machineSetConcurrency f;
     machineDeploymentConcurrency := machineDeploymentConcurrency f;
     machinePoolConcurrency := machinePoolConcurrency f; syncPeriod := v;
     webhookPort := webhookPort f; healthAddr := healthAddr f |}.
Definition set_webhookPort (v : Z) (f : Flags) : Flags :=
  {| metricsAddr := metricsAddr f; enableLeaderElection := enableLeaderElection f;
     watchNamespace := watchNamespace f; profilerAddress := profilerAddress f;
     clusterConcurrency := clusterConcurrency f; machineConcurrency := machineConcurrency f;
     machineSetConcurrency := machineSetConcurrency f;
     machineDeploymentConcurrency := machineDeploymentConcurrency f;
     machinePoolConcurrency := machinePoolConcurrency f; syncPeriod := syncPeriod f;
     webhookPort := v; healthAddr := healthAddr f |}.
Definition set_healthAddr (v : string) (f : Flags) : Flags :=
  {| metricsAddr := metricsAddr f; enableLeaderElection := enableLeaderElection f;
     watchNamespace := watchNamespace f; profilerAddress := profilerAddress f;
     clusterConcurrency := clusterConcurrency f; machineConcurrency := machineConcurrency f;
     machineSetConcurrency := machineSetConcurrency f;
     machineDeploymentConcurrency := machineDeploymentConcurrency f;
     machinePoolConcurrency := machinePoolConcurrency f; syncPeriod := syncPeriod f;
     webhookPort := webhookPort f; healthAddr := v |}.

(** A flag of the command-line flag set: the pointer it writes to, by type. *)
Inductive FlagVar :=
| StringVar (p : string -> Flags -> Flags)
| BoolVar (p : bool -> Flags -> Flags)
| IntVar (p : Z -> Flags -> Flags)
| DurationVar (p : Z -> Flags -> Flags).

(** ** Calls that leave the file, and what the process records *)

(** The calls into other packages that return an [error]. *)
Inductive Call :=
| AddToScheme (b : SchemeBuilder)
| NewManager (config : restConfig) (options : ctrlOptions)
| AddReadyzCheck (mgr : Manager) (name : string) (check : Checker)
| AddHealthzCheck (mgr : Manager) (name : string) (check : Checker)
| SetupWithManager (r : Reconciler) (mgr : Manager) (options : controllerOptions)
| SetupWebhookWithManager (v : APIVersion) (t : APIType) (mgr : Manager)
| Start (mgr : Manager).

(** The goroutines main.go starts. *)
Inductive Goroutine := ProfilerEndpoint.

(** What the process does that can be seen from outside, in order. *)
Inductive Event :=
| ECall (c : Call) (r : option error)
| ESetLogger
| EKlogInfo (msg : string)
| ESetupLogInfo (msg : string)
| ESetupLogError (err : error) (msg : string) (keysAndValues : list string)
| EDie (msg : string)
| EGo (g : Goroutine).

(** A controller bound to the manager. *)
Record ControllerBinding := {
  reconciler : Reconciler;
  options : controllerOptions }.

(** The state of the process: the flag variables, the command-line flag set,
    [scheme], what has been registered with the manager, the goroutines
    started, and the trace of events, most recent first. *)
Record Proc := {
  flags : Flags;
  formal : list (string * FlagVar);
  scheme : list SchemeBuilder;
  controllers : list ControllerBinding;
  webhooks : list (APIVersion * APIType);
  readyzChecks : list (string * Checker);
  healthzChecks : list (string * Checker);
  goroutines : list Goroutine;
  trace : list Event }.

(** The process before [init]: every variable has its zero value. *)
Definition zeroFlags : Flags :=
  {| metricsAddr := ""; enableLeaderElection := false; watchNamespace := "";
     profilerAddress := ""; clusterConcurrency := 0; machineConcurrency := 0;
     machineSetConcurrency := 0; machineDeploymentConcurrency := 0;
     machinePoolConcurrency := 0; syncPeriod := 0; webhookPort := 0;
     healthAddr := "" |}.

Definition start : Proc :=
  {| flags := zeroFlags; formal := []; scheme := []; controllers := [];
     webhooks := []; readyzChecks := []; healthzChecks := []; goroutines := [];
     trace := [] |}.

(** What the other packages answer. *)
Record World := {
  (** the result of each call that returns an [error] ([None] is [nil]) *)
  outcome : Call -> option error;
  (** the configuration [ctrl.GetConfigOrDie] finds, if any *)
  kubeconfig : option restConfig;
  (** whether [client.New] fails *)
  client_New : restConfig -> clientOptions -> option error;
  (** [http.ListenAndServe] returns only with an error *)
  http_ListenAndServe : string -> error;
  (** the conversions the flag package applies to the text of a value *)
  ParseBool : string -> option bool;
  ParseInt : string -> option Z;
  ParseDuration : string -> option Z }.

(** ** The process monad

    A computation takes the state of the process and gives the new state
    with either a value or, after [os.Exit], the exit code; the state at
    the exit is kept, so the trace shows what was logged before it. *)

Inductive Res (A : Type) :=
| Ret (a : A)
| Exit (code : Z).
Arguments Ret {A} a.
Arguments Exit {A} code.

Definition M (A : Type) : Type := Proc -> Proc * Res A.

Definition ret {A} (a : A) : M A := fun s => (s, Ret a).

Definition bind {A B} (m : M A) (k : A -> M B) : M B :=
  fun s =>
    match m s with
    | (s', Ret a) => k a s'
    | (s', Exit code) => (s', Exit code)
    end.

Declare Scope proc_scope.
Delimit Scope proc_scope with proc.
Notation "x <- m ;; k" := (bind m (fun x => k))
  (at level 61, m at next level, right associativity) : proc_scope.
Notation "m ;; k" := (bind m (fun _ => k))
  (at level 61, right associativity) : proc_scope.
Local Open Scope proc_scope.

Definition os_Exit {A} (code : Z) : M A := fun s => (s, Exit code).

(** Reading a package-level variable. *)
Definition read {A} (field : Flags -> A) : M A := fun s => (s, Ret (field (flags s))).

(** The final state of a run and the exit status of the process. *)
Definition exec {A} (m : M A) (s : Proc) : Proc := fst (m s).

Definition status {A} (m : M A) (s : Proc) : Z :=
  match snd (m s) with
  | Ret _ => 0
  | Exit code => code
  end.

(** *** Updates of the state *)

Definition record (e : Event) (s : Proc) : Proc :=
  {| flags := flags s; formal := formal s; scheme := scheme s;
     controllers := controllers s; webhooks := webhooks s;
     readyzChecks := readyzChecks s; healthzChecks := healthzChecks s;
     goroutines := goroutines s; trace := e :: trace s |}.

Definition assign (upd : Flags -> Flags) (s : Proc) : Proc :=
  {| flags := upd (flags s); formal := formal s; scheme := scheme s;
     controllers := controllers s; webhooks := webhooks s;
     readyzChecks := readyzChecks s; healthzChecks := healthzChecks s;
     goroutines := goroutines s; trace := trace s |}.

Definition define (name : string) (v : FlagVar) (s : Proc) : Proc :=
  {| flags := flags s; formal := formal s ++ [(name, v)]; scheme := scheme s;
     controllers := controllers s; webhooks := webhooks s;
     readyzChecks := readyzChecks s; healthzChecks := healthzChecks s;
     goroutines := goroutines s; trace := trace s |}.

Definition spawn (g : Goroutine) (s : Proc) : Proc :=
  {| flags := flags s; formal := formal s; scheme := scheme s;
     controllers := controllers s; webhooks := webhooks s;
     readyzChecks := readyzChecks s; healthzChecks := healthzChecks s;
     goroutines := goroutines s ++ [g]; trace := trace s |}.

(** What a call that succeeded leaves behind. *)
Definition effect (c : Call) (s : Proc) : Proc :=
  match c with
  | AddToScheme b =>
      {| flags := flags s; formal := formal s; scheme := scheme s ++ [b];
         controllers := controllers s; webhooks := webhooks s;
         readyzChecks := readyzChecks s; healthzChecks := healthzChecks s;
         goroutines := goroutines s; trace := trace s |}
  | AddReadyzCheck _ name check =>
      {| flags := flags s; formal := formal s; scheme := scheme s;
         controllers := controllers s; webhooks := webhooks s;
         readyzChecks := readyzChecks s ++ [(name, check)];
         healthzChecks := healthzChecks s;
         goroutines := goroutines s; trace := trace s |}
  | AddHealthzCheck _ name check =>
      {| flags := flags s; formal := formal s; scheme := scheme s;
         controllers := controllers s; webhooks := webhooks s;
         readyzChecks := readyzChecks s;
         healthzChecks := healthzChecks s ++ [(name, check)];
         goroutines := goroutines s; trace := trace s |}
  | SetupWithManager r _ o =>
      {| flags := flags s; formal := formal s; scheme := scheme s;
         controllers := controllers s ++ [{| reconciler := r; options := o |}];
         webhooks := webhooks s;
         readyzChecks := readyzChecks s; healthzChecks := healthzChecks s;
         goroutines := goroutines s; trace := trace s |}
  | SetupWebhookWithManager v t _ =>
      {| flags := flags s; formal := formal s; scheme := scheme s;
         controllers := controllers s; webhooks := webhooks s ++ [(v, t)];
         readyzChecks := readyzChecks s; healthzChecks := healthzChecks s;
         goroutines := goroutines s; trace := trace s |}
  | NewManager _ _ | Start _ => s
  end.

Section Program.

Variable w : World.

(** *** The imported functions *)

(** A call into another package: the world decides its result, the trace
    records it, and a call that succeeds has its effect. *)
Definition call (c : Call) : M (option error) :=
  fun s =>
    match outcome w c with
    | None => (record (ECall c None) (effect c s), Ret None)
    | Some err => (record (ECall c (Some err)) s, Ret (Some err))
    end.

Definition setupLog_Error (err : error) (msg : string) (kv : list string) : M unit :=
  fun s => (record (ESetupLogError err msg kv) s, Ret tt).

Definition setupLog_Info (msg : string) : M unit :=
  fun s => (record (ESetupLogInfo msg) s, Ret tt).

Definition klog_Info (msg : string) : M unit :=
  fun s => (record (EKlogInfo msg) s, Ret tt).

Definition ctrl_SetLogger : M unit :=
  fun s => (record ESetLogger s, Ret tt).

(** [go f()]: the goroutine is started and the caller goes on at once. *)
Definition go (g : Goroutine) : M unit :=
  fun s => (record (EGo g) (spawn g s), Ret tt).

(** [ctrl.GetConfigOrDie]: the configuration, or the process exits with 1. *)
Definition ctrl_GetConfigOrDie : M restConfig :=
  match kubeconfig w with
  | Some config => ret config
  | None => fun s => (record (EDie "unable to get kubeconfig") s, Exit 1)
  end.

(** [ctrl.NewManager]: the manager with a nil error, or nil with the error. *)
Definition ctrl_NewManager (config : restConfig) (opts : ctrlOptions)
  : M (Manager + error) :=
  err <- call (NewManager config opts) ;;
  match err with
  | Some e => ret (inr e)
  | None => ret (inl {| mgrConfig := config; mgrOptions := opts |})
  end.

(** [flag.StringVar(p, name, value, usage)] and its siblings: the variable
    takes the default and the flag joins the flag set. *)
Definition flag_StringVar (p : string -> Flags -> Flags) (name value : string) : M unit :=
  fun s => (define name (StringVar p) (assign (p value) s), Ret tt).
Definition flag_BoolVar (p : bool -> Flags -> Flags) (name : string) (value : bool) : M unit :=
  fun s => (define name (BoolVar p) (assign (p value) s), Ret tt).
Definition flag_IntVar (p : Z -> Flags -> Flags) (name : string) (value : Z) : M unit :=
  fun s => (define name (IntVar p) (assign (p value) s), Ret tt).
Definition flag_DurationVar (p : Z -> Flags -> Flags) (name : string) (value : Z) : M unit :=
  fun s => (define name (DurationVar p) (assign (p value) s), Ret tt).

Fixpoint lookupFlag (name : string) (fs : list (string * FlagVar)) : option FlagVar :=
  match fs with
  | [] => None
  | (n, v) :: rest => if String.eqb n name then Some v else lookupFlag name rest
  end.

(** [Value.Set]: the text converted to the type of the flag, then stored. *)
Definition setFlag (v : FlagVar) (text : string) : option (Flags -> Flags) :=
  match v with
  | StringVar p => Some (p text)
  | BoolVar p => option_map p (ParseBool w text)
  | IntVar p => option_map p (ParseInt w text)
  | DurationVar p => option_map p (ParseDuration w text)
  end.

(** [flag.Parse] on the command line, given as the [-name=value] pairs in
    order. The flag set exits with status 2 at the first name that is not
    defined or value that does not convert; what was assigned before stays. *)
Fixpoint flag_Parse (args : list (string * string)) : M unit :=
  match args with
  | [] => ret tt
  | (name, text) :: rest =>
      fun s =>
        match lookupFlag name (formal s) with
        | None => (s, Exit 2)
        | Some v =>
            match setFlag v text with
            | None => (s, Exit 2)
            | Some upd => flag_Parse rest (assign upd s)
            end
        end
  end.

(** [time.Minute], in nanoseconds. *)
Definition time_Minute : Z := 60 * 1000000000.

(** *** main.go *)

(** [init]: the errors of [AddToScheme] are dropped. [klog.InitFlags] adds
    klog's own flags to the flag set; they write to none of the variables of
    this file and are left out, so a command line here names only flags that
    main.go defines. *)
Definition init : M unit :=
  call (AddToScheme clientgoscheme) ;;
  call (AddToScheme (clusterScheme clusterv1alpha2)) ;;
  call (AddToScheme (clusterScheme clusterv1alpha3)) ;;
  ret tt.

(** [concurrency] *)
Definition concurrency (c : Z) : controllerOptions :=
  {| MaxConcurrentReconciles := c |}.

(** [newClientFunc]: reads from the cache, writes directly to the server. *)
Definition newClientFunc : NewClientFunc :=
  fun cache config options =>
    match client_New w config options with
    | Some err => inr err
    | None =>
        let c := DirectClient config options in
        inl {| Reader := ReaderOfCache cache;
               Writer := WriterOfClient c;
               StatusClient := StatusOfClient c |}
    end.

(** The statement [if err := f(); err != nil { setupLog.Error(err, msg, kv...);
    os.Exit(1) }], which main.go repeats for every registration. *)
Definition orExit (f : M (option error)) (msg : string) (kv : list string) : M unit :=
  err <- f ;;
  match err with
  | Some e => setupLog_Error e msg kv ;; os_Exit 1
  | None => ret tt
  end.

(** [setupChecks] *)
Definition setupChecks (mgr : Manager) : M unit :=
  orExit (call (AddReadyzCheck mgr "ping" healthz_Ping))
    "unable to create ready check" [] ;;
  orExit (call (AddHealthzCheck mgr "ping" healthz_Ping))
    "unable to create health check" [].

(** [setupReconcilers] *)
Definition setupReconcilers (mgr : Manager) : M unit :=
  port <- read webhookPort ;;
  if negb (port =? 0) then ret tt else
  c <- read clusterConcurrency ;;
  orExit (call (SetupWithManager
                  {| kind := ClusterReconciler; Client := GetClient mgr;
                     Log := ["controllers"; "Cluster"] |}
                  mgr (concurrency c)))
    "unable to create controller" ["controller"; "Cluster"] ;;
  c <- read machineConcurrency ;;
  orExit (call (SetupWithManager
                  {| kind := MachineReconciler; Client := GetClient mgr;
                     Log := ["controllers"; "Machine"] |}
                  mgr (concurrency c)))
    "unable to create controller" ["controller"; "Machine"] ;;
  c <- read machineSetConcurrency ;;
  orExit (call (SetupWithManager
                  {| kind := MachineSetReconciler; Client := GetClient mgr;
                     Log := ["controllers"; "MachineSet"] |}
                  mgr (concurrency c)))
    "unable to create controller" ["controller"; "MachineSet"] ;;
  c <- read machineDeploymentConcurrency ;;
  orExit (call (SetupWithManager
                  {| kind := MachineDeploymentReconciler; Client := GetClient mgr;
                     Log := ["controllers"; "MachineDeployment"] |}
                  mgr (concurrency c)))
    "unable to create controller" ["controller"; "MachineDeployment"] ;;
  c <- read machinePoolConcurrency ;;
  orExit (call (SetupWithManager
                  {| kind := MachinePoolReconciler; Client := GetClient mgr;
                     Log := ["controllers"; "MachinePool"] |}
                  mgr (concurrency c)))
    "unable to create controller" ["controller"; "MachinePool"].

(** [setupWebhooks] *)
Definition setupWebhooks (mgr : Manager) : M unit :=
  port <- read webhookPort ;;
  if port =? 0 then ret tt else
  orExit (call (SetupWebhookWithManager clusterv1alpha2 Cluster mgr))
    "unable to create webhook" ["webhook"; "Cluster"] ;;
  orExit (call (SetupWebhookWithManager clusterv1alpha3 Cluster mgr))
    "unable to create webhook" ["webhook"; "Cluster"] ;;
  orExit (call (SetupWebhookWithManager clusterv1alpha2 ClusterList mgr))
    "unable to create webhook" ["webhook"; "ClusterList"] ;;
  orExit (call (SetupWebhookWithManager clusterv1alpha2 Machine mgr))
    "unable to create webhook" ["webhook"; "Machine"] ;;
  orExit (call (SetupWebhookWithManager clusterv1alpha3 Machine mgr))
    "unable to create webhook" ["webhook"; "Machine"] ;;
  orExit (call (SetupWebhookWithManager clusterv1alpha2 MachineList mgr))
    "unable to create webhook" ["webhook"; "MachineList"] ;;
  orExit (call (SetupWebhookWithManager clusterv1alpha2 MachineSet mgr))
    "unable to create webhook" ["webhook"; "MachineSet"] ;;
  orExit (call (SetupWebhookWithManager clusterv1alpha3 MachineSet mgr))
    "unable to create webhook" ["webhook"; "MachineSet"] ;;
  orExit (call (SetupWebhookWithManager clusterv1alpha2 MachineSetList mgr))
    "unable to create webhook" ["webhook"; "MachineSetList"] ;;
  orExit (call (SetupWebhookWithManager clusterv1alpha2 MachineDeployment mgr))
    "unable to create webhook" ["webhook"; "MachineDeployment"] ;;
  orExit (call (SetupWebhookWithManager clusterv1alpha3 MachineDeployment mgr))
    "unable to create webhook" ["webhook"; "MachineDeployment"] ;;
  orExit (call (SetupWebhookWithManager clusterv1alpha2 MachineDeploymentList mgr))
    "unable to create webhook" ["webhook"; "MachineDeploymentList"] ;;
  orExit (call (SetupWebhookWithManager clusterv1alpha3 MachinePool mgr))
    "unable to create webhook" ["webhook"; "MachinePool"].

(** The body of the goroutine of [main]: [http.ListenAndServe] returns only
    with an error, which is logged at the info level. *)
Definition profilerEndpoint : M unit :=
  addr <- read profilerAddress ;;
  klog_Info (http_ListenAndServe w addr).

Definition goroutineBody (g : Goroutine) : M unit :=
  match g with
  | ProfilerEndpoint => profilerEndpoint
  end.

(** [main], lines 71 to 105: the twelve flags and their defaults. *)
Definition defineFlags : M unit :=
  flag_StringVar set_metricsAddr "metrics-addr" ":8080" ;;
  flag_BoolVar set_enableLeaderElection "enable-leader-election" false ;;
  flag_StringVar set_watchNamespace "namespace" "" ;;
  flag_StringVar set_profilerAddress "profiler-address" "" ;;
  flag_IntVar set_clusterConcurrency "cluster-concurrency" 10 ;;
  flag_IntVar set_machineConcurrency "machine-concurrency" 10 ;;
  flag_IntVar set_machineSetConcurrency "machineset-concurrency" 10 ;;
  flag_IntVar set_machineDeploymentConcurrency "machinedeployment-concurrency" 10 ;;
  flag_IntVar set_machinePoolConcurrency "machinepool-concurrency" 10 ;;
  flag_DurationVar set_syncPeriod "sync-period" (10 * time_Minute) ;;
  flag_IntVar set_webhookPort "webhook-port" 0 ;;
  flag_StringVar set_healthAddr "health-addr" ":9440".

(** The [ctrl.Options] literal of [main], from the values of the
    package-level variables. *)
Definition optionsOf (f : Flags) (sch : list SchemeBuilder) : ctrlOptions :=
  {| Scheme := sch;
     MetricsBindAddress := metricsAddr f;
     LeaderElection := enableLeaderElection f;
     LeaderElectionID := "controller-leader-election-capi";
     Namespace := watchNamespace f;
     SyncPeriod := Some (syncPeriod f);
     NewClient := newClientFunc;
     Port := webhookPort f;
     HealthProbeBindAddress := healthAddr f |}.

Definition managerOptions : M ctrlOptions :=
  fun s => (s, Ret (optionsOf (flags s) (scheme s))).

(** [main], lines 111 to 116: the profiler, if an address is given. *)
Definition startProfiler : M unit :=
  addr <- read profilerAddress ;;
  if negb (String.eqb addr "") then
    klog_Info ("Profiler listening for requests at " ++ addr) ;;
    go ProfilerEndpoint
  else ret tt.

(** [main], lines 118 to 143: the manager, its registrations, its run. *)
Definition runManager : M unit :=
  config <- ctrl_GetConfigOrDie ;;
  opts <- managerOptions ;;
  r <- ctrl_NewManager config opts ;;
  match r with
  | inr err =>
      setupLog_Error err "unable to start manager" [] ;; os_Exit 1
  | inl mgr =>
      setupChecks mgr ;;
      setupReconcilers mgr ;;
      setupWebhooks mgr ;;
      setupLog_Info "starting manager" ;;
      orExit (call (Start mgr)) "problem running manager" []
  end.

(** [main], from line 109 on: what runs once the flags are parsed. *)
Definition boot : M unit :=
  ctrl_SetLogger ;;
  startProfiler ;;
  runManager.

(** [main] *)
Definition main (args : list (string * string)) : M unit :=
  defineFlags ;;
  flag_Parse args ;;
  boot.

(** The process: [init] runs before [main]. *)
Definition process (args : list (string * string)) : M unit :=
  init ;;
  main args.

(** The part of the process that sets the flag variables: [init], then
    [main] up to [flag.Parse]. *)
Definition configure (args : list (string * string)) : M unit :=
  init ;;
  defineFlags ;;
  flag_Parse args.

(** The configuration: the flag variables once [flag.Parse] has returned. *)
Definition configuration (args : list (string * string)) : option Flags :=
  match configure args start with
  | (s, Ret _) => Some (flags s)
  | (_, Exit _) => None
  end.

End Program.

(** ** Test doubles *)

(** Decimal text, with an optional minus sign. *)
Fixpoint digits (s : string) (acc : Z) : option Z :=
  match s with
  | EmptyString => Some acc
  | String c rest =>
      let n := Z.of_nat (Ascii.nat_of_ascii c) - 48 in
      if (0 <=? n) && (n <=? 9) then digits rest (10 * acc + n) else None
  end.

Definition decimal (s : string) : option Z :=
  match s with
  | EmptyString => None
  | String "-"%char (String c rest) => option_map Z.opp (digits (String c rest) 0)
  | _ => digits s 0
  end.

Definition boolean (s : string) : option bool :=
  if String.eqb s "true" then Some true
  else if String.eqb s "false" then Some false
  else None.

Definition calmConfig : restConfig := {| Host := "https://10.0.0.1:6443" |}.

(** A world in which every call succeeds. *)
Definition calm : World :=
  {| outcome := fun _ => None;
     kubeconfig := Some calmConfig;
     client_New := fun _ _ => None;
     http_ListenAndServe := fun _ => "listen tcp: address already in use";
     ParseBool := boolean;
     ParseInt := decimal;
     ParseDuration := decimal |}.


(** What the process builds in such worlds. *)
Definition calmScheme : list SchemeBuilder :=
  [clientgoscheme; clusterScheme clusterv1alpha2; clusterScheme clusterv1alpha3].

Definition managerOf (w : World) (f : Flags) : Manager :=
  {| mgrConfig := calmConfig; mgrOptions := optionsOf w f calmScheme |}.

Definition reconcilerOf (k : ReconcilerKind) (name : string) (mgr : Manager) : Reconciler :=
  {| kind := k; Client := GetClient mgr; Log := ["controllers"; name] |}.


(** Command lines. *)
Definition webhookArgs : list (string * string) := [("webhook-port", "9443")].

Definition lenientArgs : list (string * string) :=
  [("cluster-concurrency", "0"); ("machine-concurrency", "-3")].

Definition profilerArgs : list (string * string) :=
  [("profiler-address", "localhost:6060")].

(** ** Predicates on the process *)

(** [wp m Q X s]: run from [s], [m] either returns [a] in a state with
    [Q a], or exits with [code] in a state with [X code]. *)
Definition wp {A} (m : M A) (Q : A -> Proc -> Prop) (X : Z -> Proc -> Prop)
  : Proc -> Prop :=
  fun s =>
    match m s with
    | (s', Ret a) => Q a s'
    | (s', Exit code) => X code s'
    end.

(** [m] keeps [I], on return and on exit alike. *)
Definition stable {A} (I : Proc -> Prop) (m : M A) : Prop :=
  forall s, I s -> wp m (fun _ => I) (fun _ => I) s.

(** *** Properties that an update of the state cannot break *)

(** [I] survives the recording of every event that [ok] lets through. *)
Definition recording (ok : Event -> Prop) (I : Proc -> Prop) : Prop :=
  forall e s, ok e -> I s -> I (record e s).

(** [I] does not look at the trace. *)
Definition traceless (I : Proc -> Prop) : Prop :=
  recording (fun _ => True) I.

(** [I] does not look at the flag variables nor at the flag set. *)
Definition flagless (I : Proc -> Prop) : Prop :=
  (forall upd s, I s -> I (assign upd s)) /\
  (forall name v s, I s -> I (define name v s)).

(** [I] does not look at the goroutines. *)
Definition goroutineless (I : Proc -> Prop) : Prop :=
  forall g s, I s -> I (spawn g s).

(** Nothing is registered yet. *)
Definition unregistered (s : Proc) : Prop :=
  controllers s = [] /\ webhooks s = [].

(** At most one of the two registries is in use. *)
Definition exclusive (s : Proc) : Prop :=
  controllers s = [] \/ webhooks s = [].

(** After the flags are parsed: the registry of the other mode is empty. *)
Definition modal (s : Proc) : Prop :=
  (webhookPort (flags s) = 0 -> webhooks s = []) /\
  (webhookPort (flags s) <> 0 -> controllers s = []).

(** ** The configured process *)

(** The flag set once [main] has defined its flags. *)
Definition flagSet : list (string * FlagVar) :=
  [ ("metrics-addr", StringVar set_metricsAddr);
    ("enable-leader-election", BoolVar set_enableLeaderElection);
    ("namespace", StringVar set_watchNamespace);
    ("profiler-address", StringVar set_profilerAddress);
    ("cluster-concurrency", IntVar set_clusterConcurrency);
    ("machine-concurrency", IntVar set_machineConcurrency);
    ("machineset-concurrency", IntVar set_machineSetConcurrency);
    ("machinedeployment-concurrency", IntVar set_machineDeploymentConcurrency);
    ("machinepool-concurrency", IntVar set_machinePoolConcurrency);
    ("sync-period", DurationVar set_syncPeriod);
    ("webhook-port", IntVar set_webhookPort);
    ("health-addr", StringVar set_healthAddr) ].

(** The flag variables when no flag is given. *)
Definition defaults : Flags :=
  {| metricsAddr := ":8080"; enableLeaderElection := false; watchNamespace := "";
     profilerAddress := ""; clusterConcurrency := 10; machineConcurrency := 10;
     machineSetConcurrency := 10; machineDeploymentConcurrency := 10;
     machinePoolConcurrency := 10; syncPeriod := 600000000000; webhookPort := 0;
     healthAddr := ":9440" |}.

(** The process when [flag.Parse] is over: nothing is registered, the trace
    holds what [init] did. *)
Definition parsed (f : Flags) (sch : list SchemeBuilder) (tr : list Event) : Proc :=
  {| flags := f; formal := flagSet; scheme := sch; controllers := [];
     webhooks := []; readyzChecks := []; healthzChecks := []; goroutines := [];
     trace := tr |}.

Definition schemeEvent (e : Event) : Prop :=
  exists b r, e = ECall (AddToScheme b) r.

(** A flag other than [name] does not write to the variable [proj] reads. *)
Definition owns {X} (w : World) (name : string) (proj : Flags -> X) : Prop :=
  forall n v text upd f,
    lookupFlag n flagSet = Some v -> n <> name ->
    setFlag w v text = Some upd -> proj (upd f) = proj f.

(** ** Concurrency bounds *)

(** The concurrency flag of each kind of reconciler. *)
Definition ownConcurrency (k : ReconcilerKind) (f : Flags) : Z :=
  match k with
  | ClusterReconciler => clusterConcurrency f
  | MachineReconciler => machineConcurrency f
  | MachineSetReconciler => machineSetConcurrency f
  | MachineDeploymentReconciler => machineDeploymentConcurrency f
  | MachinePoolReconciler => machinePoolConcurrency f
  end.

(** The bound of a binding is the value of the flag of its kind. *)
Definition boundByOwnFlag (f : Flags) (b : ControllerBinding) : Prop :=
  MaxConcurrentReconciles (options b) = ownConcurrency (kind (reconciler b)) f.

Definition ownBounds (s : Proc) : Prop :=
  Forall (boundByOwnFlag (flags s)) (controllers s).

(** ** The leader-election lock *)

(** If the event is the construction of a manager, the manager gets the
    lock of cluster-api. *)
Definition sameLock (e : Event) : Prop :=
  forall config opts r,
    e = ECall (NewManager config opts) r ->
    LeaderElectionID opts = "controller-leader-election-capi".

Definition oneLock (s : Proc) : Prop := Forall sameLock (trace s).

(** ** The profiler *)

(** The same world, but for what [http.ListenAndServe] returns. *)
Definition withListenAndServe (lis : string -> error) (w : World) : World :=
  {| outcome := outcome w;
     kubeconfig := kubeconfig w;
     client_New := client_New w;
     http_ListenAndServe := lis;
     ParseBool := ParseBool w;
     ParseInt := ParseInt w;
     ParseDuration := ParseDuration w |}.

(** The goroutines of a process configured with [f]. *)
Definition sidecars (f : Flags) : list Goroutine :=
  if String.eqb (profilerAddress f) "" then [] else [ProfilerEndpoint].

(** ** Fatal boot errors *)

Definition reconcilerName (k : ReconcilerKind) : string :=
  match k with
  | ClusterReconciler => "Cluster"
  | MachineReconciler => "Machine"
  | MachineSetReconciler => "MachineSet"
  | MachineDeploymentReconciler => "MachineDeployment"
  | MachinePoolReconciler => "MachinePool"
  end.

Definition typeName (t : APIType) : string :=
  match t with
  | Cluster => "Cluster"
  | ClusterList => "ClusterList"
  | Machine => "Machine"
  | MachineList => "MachineList"
  | MachineSet => "MachineSet"
  | MachineSetList => "MachineSetList"
  | MachineDeployment => "MachineDeployment"
  | MachineDeploymentList => "MachineDeploymentList"
  | MachinePool => "MachinePool"
  end.

(** The stages of the boot: the construction of the manager and the three
    kinds of registration, each with the line that names it when it fails:
    the message and the key and value that follow it. *)
Definition report (c : Call) : option (string * list string) :=
  match c with
  | NewManager _ _ => Some ("unable to start manager", [])
  | AddReadyzCheck _ _ _ => Some ("unable to create ready check", [])
  | AddHealthzCheck _ _ _ => Some ("unable to create health check", [])
  | SetupWithManager r _ _ =>
      Some ("unable to create controller", ["controller"; reconcilerName (kind r)])
  | SetupWebhookWithManager _ t _ =>
      Some ("unable to create webhook", ["webhook"; typeName t])
  | AddToScheme _ | Start _ => None
  end.

(** A stage of the boot that failed. *)
Definition failedBoot (e : Event) : bool :=
  match e with
  | ECall c (Some _) =>
      match report c with
      | Some _ => true
      | None => false
      end
  | _ => false
  end.

(** The run loop. *)
Definition isStart (e : Event) : bool :=
  match e with
  | ECall (Start _) _ => true
  | _ => false
  end.

Definition quiet (e : Event) : Prop := failedBoot e = false /\ isStart e = false.

(** The boot is under way: no stage failed, the run loop is not reached. *)
Definition booting (s : Proc) : Prop := Forall quiet (trace s).





(** ** What each mode registers *)

(** The run loop was reached. *)
Definition started (s : Proc) : Prop :=
  exists mgr r, In (ECall (Start mgr) r) (trace s).


Definition reconcilerKinds : list ReconcilerKind :=
  [ClusterReconciler; MachineReconciler; MachineSetReconciler;
   MachineDeploymentReconciler; MachinePoolReconciler].


(** The webhooks of a process in webhook mode, in the order of
    registration. *)
Definition webhookSet : list (APIVersion * APIType) :=
  [ (clusterv1alpha2, Cluster); (clusterv1alpha3, Cluster);
    (clusterv1alpha2, ClusterList);
    (clusterv1alpha2, Machine); (clusterv1alpha3, Machine);
    (clusterv1alpha2, MachineList);
    (clusterv1alpha2, MachineSet); (clusterv1alpha3, MachineSet);
    (clusterv1alpha2, MachineSetList);
    (clusterv1alpha2, MachineDeployment); (clusterv1alpha3, MachineDeployment);
    (clusterv1alpha2, MachineDeploymentList);
    (clusterv1alpha3, MachinePool) ].

(** The kind and the bound of each controller of a process. *)
Definition bounds (s : Proc) : list (ReconcilerKind * Z) :=
  map (fun b => (kind (reconciler b), MaxConcurrentReconciles (options b)))
      (controllers s).


(** The run loop was reached, as a test. *)
Definition startedb (s : Proc) : bool := existsb isStart (trace s).

(** ** More of main.go *)

(** [AddToScheme] accepts the builder. *)
Definition accepted (w : World) (b : SchemeBuilder) : bool :=
  match outcome w (AddToScheme b) with
  | None => true
  | Some _ => false
  end.

(** The builders of [init], in order. *)
Definition builders : list SchemeBuilder :=
  [clientgoscheme; clusterScheme clusterv1alpha2; clusterScheme clusterv1alpha3].


(** The checks of [setupChecks]: each is registered once at most, under
    the name "ping", the readiness check before the health check, and both
    before any controller, any webhook and the run loop. *)
Definition checked (s : Proc) : Prop :=
  (readyzChecks s = [] \/ readyzChecks s = [("ping", healthz_Ping)]) /\
  (healthzChecks s = [] \/ healthzChecks s = [("ping", healthz_Ping)]) /\
  (healthzChecks s <> [] -> readyzChecks s <> []) /\
  (controllers s <> [] \/ webhooks s <> [] \/ started s ->
   readyzChecks s = [("ping", healthz_Ping)] /\
   healthzChecks s = [("ping", healthz_Ping)]).


(** The construction of a manager, if the event is one, is given the
    configuration [cfg], the scheme that [init] built, the split-client
    factory and the kubeconfig. *)
Definition wired (w : World) (cfg : Flags) (e : Event) : Prop :=
  forall config opts r,
    e = ECall (NewManager config opts) r ->
    kubeconfig w = Some config /\
    Scheme opts = filter (accepted w) builders /\
    MetricsBindAddress opts = metricsAddr cfg /\
    LeaderElection opts = enableLeaderElection cfg /\
    Namespace opts = watchNamespace cfg /\
    SyncPeriod opts = Some (syncPeriod cfg) /\
    NewClient opts = newClientFunc w /\
    Port opts = webhookPort cfg /\
    HealthProbeBindAddress opts = healthAddr cfg.

Definition allWired (w : World) (cfg : Flags) (s : Proc) : Prop :=
  Forall (wired w cfg) (trace s).

(** The reconciler of a binding logs under the name of its kind and uses
    the client of a manager that the process built. *)
Definition staffed (s : Proc) (b : ControllerBinding) : Prop :=
  Log (reconciler b) = ["controllers"; reconcilerName (kind (reconciler b))] /\
  exists config opts,
    In (ECall (NewManager config opts) None) (trace s) /\
    Client (reconciler b) = GetClient {| mgrConfig := config; mgrOptions := opts |}.

(** The stages of a process: what a call is an attempt at, whatever its
    arguments. *)
Inductive Stage :=
| SScheme (b : SchemeBuilder)
| SManager
| SReadyz
| SHealthz
| SController (k : ReconcilerKind)
| SWebhook (v : APIVersion) (t : APIType)
| SRun.

Definition stageOf (c : Call) : Stage :=
  match c with
  | AddToScheme b => SScheme b
  | NewManager _ _ => SManager
  | AddReadyzCheck _ _ _ => SReadyz
  | AddHealthzCheck _ _ _ => SHealthz
  | SetupWithManager r _ _ => SController (kind r)
  | SetupWebhookWithManager v t _ => SWebhook v t
  | Start _ => SRun
  end.

(** The stages attempted in a trace, most recent first. *)
Definition stagesIn (tr : list Event) : list Stage :=
  flat_map (fun e => match e with ECall c _ => [stageOf c] | _ => [] end) tr.

Definition Stage_eq_dec (a b : Stage) : {a = b} + {a <> b}.
Proof. repeat decide equality. Defined.

(** No stage occurs twice in the list. *)
Fixpoint distinct (l : list Stage) : bool :=
  match l with
  | [] => true
  | x :: rest =>
      negb (existsb (fun y => if Stage_eq_dec x y then true else false) rest)
      && distinct rest
  end.


Definition noKubeconfig : World :=
  {| outcome := outcome calm;
     kubeconfig := None;
     client_New := client_New calm;
     http_ListenAndServe := http_ListenAndServe calm;
     ParseBool := ParseBool calm;
     ParseInt := ParseInt calm;
     ParseDuration := ParseDuration calm |}.



(** The plan of a process with webhook port [port]: the stages in the
    order of the source. *)
Definition plan (port : Z) : list Stage :=
  (map SScheme builders
   ++ [SManager; SReadyz; SHealthz]
   ++ (if port =? 0
       then map SController reconcilerKinds
       else map (fun vt => SWebhook (fst vt) (snd vt)) webhookSet)
   ++ [SRun])%list.

(** * Proofs *)

(** ** A program logic for the process monad *)

Section Rules.

Context {A B : Type}.

Lemma wp_ret (a : A) Q X s : Q a s -> wp (ret a) Q X s.
Proof. exact (fun H => H). Qed.

Lemma wp_exit (code : Z) (Q : A -> Proc -> Prop) X s :
  X code s -> wp (os_Exit code) Q X s.
Proof. exact (fun H => H). Qed.

Lemma wp_bind (m : M A) (k : A -> M B) Q X s :
  wp m (fun a => wp (k a) Q X) X s -> wp (bind m k) Q X s.
Proof.
  unfold wp, bind. destruct (m s) as [s' [a | code]]; trivial.
Qed.

Lemma wp_mono (m : M A) (Q Q' : A -> Proc -> Prop) (X X' : Z -> Proc -> Prop) s :
  (forall a t, Q a t -> Q' a t) ->
  (forall code t, X code t -> X' code t) ->
  wp m Q X s -> wp m Q' X' s.
Proof.
  unfold wp. intros HQ HX. destruct (m s) as [s' [a | code]]; auto.
Qed.

Lemma wp_read (field : Flags -> A) Q X s :
  Q (field (flags s)) s -> wp (read field) Q X s.
Proof. exact (fun H => H). Qed.

Lemma wp_exec (m : M A) (R : Proc -> Prop) s :
  wp m (fun _ => R) (fun _ => R) s -> R (exec m s).
Proof.
  unfold wp, exec. destruct (m s) as [s' [a | code]]; trivial.
Qed.

Lemma stable_ret (I : Proc -> Prop) (a : A) : stable I (ret a).
Proof. intros s H. exact H. Qed.

Lemma stable_exit (I : Proc -> Prop) (code : Z) : stable I (@os_Exit A code).
Proof. intros s H. exact H. Qed.

Lemma stable_bind (I : Proc -> Prop) (m : M A) (k : A -> M B) :
  stable I m -> (forall a, stable I (k a)) -> stable I (bind m k).
Proof.
  intros Hm Hk s Hs. apply wp_bind.
  apply wp_mono with (Q := fun _ => I) (X := fun _ => I).
  - intros a t Ht. apply Hk, Ht.
  - trivial.
  - apply Hm, Hs.
Qed.

Lemma stable_read (I : Proc -> Prop) (field : Flags -> A) : stable I (read field).
Proof. intros s H. exact H. Qed.

End Rules.

(** Sequencing when the first part also proves something about its value. *)
Lemma wp_seq {A B} (m : M A) (k : A -> M B) (P : A -> Proc -> Prop) Q X s :
  wp m P X s -> (forall a t, P a t -> wp (k a) Q X t) -> wp (bind m k) Q X s.
Proof.
  intros Hm Hk. apply wp_bind. revert Hm. apply wp_mono; auto.
Qed.

Lemma bind_assoc {A B C} (m : M A) (k : A -> M B) (h : B -> M C) s :
  bind (bind m k) h s = bind m (fun a => bind (k a) h) s.
Proof.
  unfold bind. destruct (m s) as [s' [a | code]]; reflexivity.
Qed.

Section Frames.

Variable w : World.
Variable ok : Event -> Prop.
Variable Inv : Proc -> Prop.
Hypothesis Inv_recording : recording ok Inv.

Lemma stable_call (c : Call) :
  (forall r, ok (ECall c r)) ->
  (forall s, Inv s -> Inv (effect c s)) ->
  stable Inv (call w c).
Proof.
  intros Hok He s Hs. unfold wp, call.
  destruct (outcome w c); apply Inv_recording; auto.
Qed.

Lemma stable_setupLog_Error err msg kv :
  ok (ESetupLogError err msg kv) -> stable Inv (setupLog_Error err msg kv).
Proof. intros Hok s Hs. apply Inv_recording; assumption. Qed.

Lemma stable_setupLog_Info msg :
  ok (ESetupLogInfo msg) -> stable Inv (setupLog_Info msg).
Proof. intros Hok s Hs. apply Inv_recording; assumption. Qed.

Lemma stable_klog_Info msg : ok (EKlogInfo msg) -> stable Inv (klog_Info msg).
Proof. intros Hok s Hs. apply Inv_recording; assumption. Qed.

Lemma stable_ctrl_SetLogger : ok ESetLogger -> stable Inv ctrl_SetLogger.
Proof. intros Hok s Hs. apply Inv_recording; assumption. Qed.

Lemma stable_go g : ok (EGo g) -> goroutineless Inv -> stable Inv (go g).
Proof. intros Hok Hg s Hs. apply Inv_recording; [ | apply Hg]; assumption. Qed.

Lemma stable_ctrl_GetConfigOrDie :
  (forall msg, ok (EDie msg)) -> stable Inv (ctrl_GetConfigOrDie w).
Proof.
  intros Hok. unfold ctrl_GetConfigOrDie. destruct (kubeconfig w).
  - apply stable_ret.
  - intros s Hs. apply Inv_recording; auto.
Qed.

Lemma stable_orExit (f : M (option error)) msg kv :
  (forall err, ok (ESetupLogError err msg kv)) ->
  stable Inv f -> stable Inv (orExit f msg kv).
Proof.
  intros Hok Hf. unfold orExit. apply stable_bind; trivial.
  intros [e | ].
  - apply stable_bind; [ | intro; apply stable_exit ].
    apply stable_setupLog_Error, Hok.
  - apply stable_ret.
Qed.

End Frames.

Section FlagFrames.

Variable w : World.
Variable Inv : Proc -> Prop.
Hypothesis Inv_flagless : flagless Inv.

Lemma stable_flag_Parse (args : list (string * string)) : stable Inv (flag_Parse w args).
Proof.
  destruct Inv_flagless as [Ha _].
  induction args as [ | [name text] rest IH]; intros s Hs.
  - exact Hs.
  - unfold wp. simpl.
    destruct (lookupFlag name (formal s)) as [v | ]; [ | exact Hs].
    destruct (setFlag w v text) as [upd | ]; [ | exact Hs].
    apply IH, Ha, Hs.
Qed.

Lemma stable_defineFlags : stable Inv defineFlags.
Proof.
  destruct Inv_flagless as [Ha Hd]. unfold defineFlags.
  repeat (apply stable_bind; [ | intros _ ]);
    intros s Hs; apply Hd, Ha, Hs.
Qed.

End FlagFrames.

Lemma stable_managerOptions w (Inv : Proc -> Prop) : stable Inv (managerOptions w).
Proof. intros s Hs. exact Hs. Qed.

(** The options a continuation gets are those of the literal of [main]. *)
Lemma stable_bind_managerOptions {B} w (Inv : Proc -> Prop) (k : ctrlOptions -> M B) :
  (forall opts, (exists s, managerOptions w s = (s, Ret opts)) -> stable Inv (k opts)) ->
  stable Inv (bind (managerOptions w) k).
Proof.
  intros H s Hs. apply wp_bind. unfold wp at 1. cbn [managerOptions].
  apply H; [ | exact Hs]. exists s. reflexivity.
Qed.

Lemma traceless_recording (Inv : Proc -> Prop) :
  (forall e s, Inv s -> Inv (record e s)) -> recording (fun _ => True) Inv.
Proof. intros H e s _. apply H. Qed.

(** *** Tactics *)

Create HintDb frames.

(** The side conditions of the rules: the invariant does not look at what
    the step changes, and lets the event of the step through. *)
Ltac frame_recording :=
  first [ eassumption
        | solve [eauto with frames]
        | apply traceless_recording; intros ? ? ?; assumption ].

Ltac frame :=
  lazymatch goal with
  | |- True => exact Logic.I
  | |- recording _ _ => frame_recording
  | |- traceless _ => unfold traceless; frame_recording
  | |- goroutineless _ => intros ? ? ?; assumption
  | |- flagless _ => split; intros; assumption
  | |- _ =>
      first [ intros; lazymatch goal with
                      | H : ?P ?s |- ?P (effect _ ?s) => exact H
                      end
            | solve [eauto with frames]
            | intros; exact Logic.I ]
  end.

(** One step of a proof that a program keeps an invariant: the rule of the
    construct at the head of the program. *)
Ltac stable_step :=
  lazymatch goal with
  | |- stable _ (bind (managerOptions _) _) =>
      apply stable_bind_managerOptions; intros ? ?
  | |- stable _ (bind _ _) => apply stable_bind; [ | intro ]
  | |- stable _ (ret _) => apply stable_ret
  | |- stable _ (os_Exit _) => apply stable_exit
  | |- stable _ (read _) => apply stable_read
  | |- stable _ (managerOptions _) => apply stable_managerOptions
  | |- stable _ (orExit _ _ _) => eapply stable_orExit; [frame_recording | | ]
  | |- stable _ (call _ _) => eapply stable_call; [frame_recording | | ]
  | |- stable _ (setupLog_Error _ _ _) => eapply stable_setupLog_Error; [frame_recording | ]
  | |- stable _ (setupLog_Info _) => eapply stable_setupLog_Info; [frame_recording | ]
  | |- stable _ (klog_Info _) => eapply stable_klog_Info; [frame_recording | ]
  | |- stable _ ctrl_SetLogger => eapply stable_ctrl_SetLogger; [frame_recording | ]
  | |- stable _ (go _) => eapply stable_go; [frame_recording | | ]
  | |- stable _ (ctrl_GetConfigOrDie _) => eapply stable_ctrl_GetConfigOrDie; [frame_recording | ]
  | |- stable _ (ctrl_NewManager _ _ _) => unfold ctrl_NewManager
  | |- stable _ (flag_Parse _ _) => apply stable_flag_Parse
  | |- stable _ defineFlags => apply stable_defineFlags
  | |- stable _ (if ?b then _ else _) => destruct b
  | |- stable _ (match ?x with inl _ => _ | inr _ => _ end) => destruct x
  | |- stable _ (match ?x with Some _ => _ | None => _ end) => destruct x
  end.

Ltac stable_auto := repeat stable_step; try frame.

(** ** Boot modes *)

Section BootModes.

Variable w : World.

Lemma stable_init (Inv : Proc -> Prop) :
  traceless Inv -> (forall b s, Inv s -> Inv (effect (AddToScheme b) s)) ->
  stable Inv (init w).
Proof.
  intros Ht Hs. unfold init. stable_auto; auto.
Qed.

(** With a webhook port, [setupReconcilers] returns at once. *)
Lemma setupReconcilers_webhook_mode mgr s :
  webhookPort (flags s) <> 0 -> setupReconcilers w mgr s = (s, Ret tt).
Proof.
  intros H. unfold setupReconcilers, bind, read.
  destruct (Z.eqb_spec (webhookPort (flags s)) 0); [contradiction | reflexivity].
Qed.

(** Without one, [setupWebhooks] returns at once. *)
Lemma setupWebhooks_reconciler_mode mgr s :
  webhookPort (flags s) = 0 -> setupWebhooks w mgr s = (s, Ret tt).
Proof.
  intros H. unfold setupWebhooks, bind, read. rewrite H. reflexivity.
Qed.

Lemma unregistered_modal s : unregistered s -> modal s.
Proof. intros [Hc Hw]. split; trivial. Qed.

Lemma modal_exclusive s : modal s -> exclusive s.
Proof.
  intros [H0 H1]. destruct (Z.eq_dec (webhookPort (flags s)) 0).
  - right. auto.
  - left. auto.
Qed.

Lemma stable_modal_setupReconcilers mgr : stable modal (setupReconcilers w mgr).
Proof.
  intros s Hs. destruct (Z.eq_dec (webhookPort (flags s)) 0) as [Hp | Hp].
  - pose (J := fun t => webhookPort (flags t) = 0 /\ webhooks t = []).
    assert (HJ : forall t, J t -> modal t).
    { intros t [H0 Hw]. split; [trivial | contradiction]. }
    apply wp_mono with (Q := fun _ => J) (X := fun _ => J); auto.
    assert (stable J (setupReconcilers w mgr)) as HS
        by (unfold setupReconcilers; stable_auto).
    apply HS. split; [exact Hp | apply Hs, Hp].
  - unfold wp. rewrite setupReconcilers_webhook_mode by exact Hp. exact Hs.
Qed.

Lemma stable_modal_setupWebhooks mgr : stable modal (setupWebhooks w mgr).
Proof.
  intros s Hs. destruct (Z.eq_dec (webhookPort (flags s)) 0) as [Hp | Hp].
  - unfold wp. rewrite setupWebhooks_reconciler_mode by exact Hp. exact Hs.
  - pose (J := fun t => webhookPort (flags t) <> 0 /\ controllers t = []).
    assert (HJ : forall t, J t -> modal t).
    { intros t [H0 Hw]. split; [contradiction | trivial]. }
    apply wp_mono with (Q := fun _ => J) (X := fun _ => J); auto.
    assert (stable J (setupWebhooks w mgr)) as HS
        by (unfold setupWebhooks; stable_auto).
    apply HS. split; [exact Hp | apply Hs, Hp].
Qed.

Lemma stable_modal_boot : stable modal (boot w).
Proof.
  unfold boot, startProfiler, runManager, setupChecks. stable_auto.
  - apply stable_modal_setupReconcilers.
  - apply stable_modal_setupWebhooks.
Qed.

Lemma stable_unregistered_configure args : stable unregistered (configure w args).
Proof.
  unfold configure. stable_auto. apply stable_init; frame.
Qed.

End BootModes.

(** Once a part of the program keeps [Inv], the rest may start from [Inv]. *)
Lemma wp_after {A B} (Inv : Proc -> Prop) (m : M A) (k : A -> M B) Q X s :
  stable Inv m -> Inv s ->
  (forall code t, Inv t -> X code t) ->
  (forall a t, Inv t -> wp (k a) Q X t) ->
  wp (bind m k) Q X s.
Proof.
  intros Hm Hs HX Hk. apply wp_seq with (P := fun _ => Inv); trivial.
  apply wp_mono with (Q := fun _ => Inv) (X := fun _ => Inv); auto.
Qed.

(** The process is [configure] followed by [boot]. *)
Lemma process_configure_boot w args s :
  process w args s = bind (configure w args) (fun _ => boot w) s.
Proof.
  unfold process, main, configure. rewrite bind_assoc. unfold bind at 1 4.
  destruct (init w s) as [s1 [[] | code]]; [ | reflexivity].
  rewrite bind_assoc. reflexivity.
Qed.

Lemma exec_process w args s :
  exec (process w args) s = exec (bind (configure w args) (fun _ => boot w)) s.
Proof. unfold exec. rewrite process_configure_boot. reflexivity. Qed.

Lemma status_process w args s :
  status (process w args) s = status (bind (configure w args) (fun _ => boot w)) s.
Proof. unfold status. rewrite process_configure_boot. reflexivity. Qed.

(** C1: boot modes are mutually exclusive. With a nonzero webhook port
    [setupReconcilers] returns without registering anything, with a zero
    webhook port [setupWebhooks] does, and whatever the command line and
    whatever the other packages answer, the process never has both a
    controller and a webhook registered. *)
Theorem boot_modes_exclusive (w : World) (args : list (string * string)) :
  (forall mgr s, webhookPort (flags s) <> 0 ->
     exec (setupReconcilers w mgr) s = s) /\
  (forall mgr s, webhookPort (flags s) = 0 ->
     exec (setupWebhooks w mgr) s = s) /\
  exclusive (exec (process w args) start).
Proof.
  split; [ | split].
  - intros mgr s H. unfold exec.
    rewrite setupReconcilers_webhook_mode by exact H. reflexivity.
  - intros mgr s H. unfold exec.
    rewrite setupWebhooks_reconciler_mode by exact H. reflexivity.
  - rewrite exec_process. apply wp_exec.
    apply wp_after with (Inv := unregistered).
    + apply stable_unregistered_configure.
    + split; reflexivity.
    + intros _ t [Hc _]. left. exact Hc.
    + intros _ t Ht.
      apply wp_mono with (Q := fun _ => modal) (X := fun _ => modal).
      * intros _. apply modal_exclusive.
      * intros _. apply modal_exclusive.
      * apply stable_modal_boot, unregistered_modal, Ht.
Qed.

(** ** The split client *)

(** C2: the client that the factory produces reads from the cache and
    writes, status included, through a direct client made from the
    connection configuration: its [Reader] is the cache handle, its [Writer]
    and [StatusClient] the client that [client.New config options] built, so
    every read operation is served by the cache and every write and
    status-write operation by that direct client. *)
Theorem split_client_routes (w : World) (cache : cacheCache) (config : restConfig)
    (options : clientOptions) (dc : DelegatingClient) :
  newClientFunc w cache config options = inl dc ->
  client_New w config options = None /\
  Reader dc = ReaderOfCache cache /\
  Writer dc = WriterOfClient (DirectClient config options) /\
  StatusClient dc = StatusOfClient (DirectClient config options) /\
  (forall op, classOf op = ReadOp -> serve dc op = ServedByCache cache) /\
  (forall op, classOf op <> ReadOp ->
     serve dc op = ServedByStore (DirectClient config options)).
Proof.
  unfold newClientFunc. intros H.
  destruct (client_New w config options) as [err | ]; [discriminate | ].
  injection H as <-. repeat split.
  - intros op Hop. unfold serve. rewrite Hop. reflexivity.
  - intros op Hop. unfold serve.
    destruct (classOf op); [contradiction | reflexivity | reflexivity].
Qed.

(** ** Flags *)

Section Configure.

Variable w : World.

Lemma init_run s :
  exists sch tr,
    init w s =
      ({| flags := flags s; formal := formal s; scheme := sch;
          controllers := controllers s; webhooks := webhooks s;
          readyzChecks := readyzChecks s; healthzChecks := healthzChecks s;
          goroutines := goroutines s; trace := tr ++ trace s |}, Ret tt)
    /\ Forall schemeEvent tr.
Proof.
  unfold init, bind, call, ret.
  destruct (outcome w (AddToScheme clientgoscheme));
    destruct (outcome w (AddToScheme (clusterScheme clusterv1alpha2)));
    destruct (outcome w (AddToScheme (clusterScheme clusterv1alpha3)));
    simpl; do 2 eexists;
    (split;
     [ match goal with
       | |- (?st, _) = _ =>
           instantiate (1 := firstn 3 (trace st)); reflexivity
       end
     | repeat constructor; do 2 eexists; reflexivity ]).
Qed.

Lemma defineFlags_run s :
  defineFlags s =
    ({| flags := defaults; formal := formal s ++ flagSet; scheme := scheme s;
        controllers := controllers s; webhooks := webhooks s;
        readyzChecks := readyzChecks s; healthzChecks := healthzChecks s;
        goroutines := goroutines s; trace := trace s |}, Ret tt).
Proof.
  destruct s as [f fs sch cs ws rs hs gs tr].
  cbv beta iota zeta delta
    [defineFlags bind flag_StringVar flag_BoolVar flag_IntVar flag_DurationVar
     define assign flags formal scheme controllers webhooks readyzChecks
     healthzChecks goroutines trace
     set_metricsAddr set_enableLeaderElection set_watchNamespace
     set_profilerAddress set_clusterConcurrency set_machineConcurrency
     set_machineSetConcurrency set_machineDeploymentConcurrency
     set_machinePoolConcurrency set_syncPeriod set_webhookPort set_healthAddr
     metricsAddr enableLeaderElection watchNamespace profilerAddress
     clusterConcurrency machineConcurrency machineSetConcurrency
     machineDeploymentConcurrency machinePoolConcurrency syncPeriod
     webhookPort healthAddr].
  repeat rewrite <- app_assoc. reflexivity.
Qed.

(** [flag.Parse] changes the flag variables and nothing else, and exits
    with status 2 if it exits. *)
Lemma flag_Parse_run args s :
  exists f r,
    flag_Parse w args s = (assign (fun _ => f) s, r) /\ (r = Ret tt \/ r = Exit 2).
Proof.
  revert s. induction args as [ | [name text] rest IH]; intros s; simpl.
  - exists (flags s), (Ret tt). split; [destruct s; reflexivity | left; reflexivity].
  - destruct (lookupFlag name (formal s)) as [v | ].
    + destruct (setFlag w v text) as [upd | ].
      * destruct (IH (assign upd s)) as (f & r & E & Hr). exists f, r.
        split; [exact E | exact Hr].
      * exists (flags s), (Exit 2).
        split; [destruct s; reflexivity | right; reflexivity].
    + exists (flags s), (Exit 2).
      split; [destruct s; reflexivity | right; reflexivity].
Qed.

(** A flag that the command line does not name keeps its value. *)
Lemma flag_Parse_unset {X} (proj : Flags -> X) (name : string) :
  owns w name proj ->
  forall args s, formal s = flagSet -> ~ In name (map fst args) ->
    proj (flags (exec (flag_Parse w args) s)) = proj (flags s).
Proof.
  intros Hown. induction args as [ | [n text] rest IH]; intros s Hf Hn.
  - reflexivity.
  - unfold exec. simpl. rewrite Hf.
    destruct (lookupFlag n flagSet) as [v | ] eqn:Hl; [ | reflexivity].
    destruct (setFlag w v text) as [upd | ] eqn:Hs; [ | reflexivity].
    change (proj (flags (exec (flag_Parse w rest) (assign upd s))) = proj (flags s)).
    rewrite IH.
    + simpl. eapply Hown; eauto. intros ->. apply Hn. left. reflexivity.
    + exact Hf.
    + intros Hin. apply Hn. right. exact Hin.
Qed.

(** What [configure] leaves. *)
Lemma configure_run args :
  exists f sch tr r,
    configure w args start = (parsed f sch tr, r) /\ Forall schemeEvent tr /\
    (r = Ret tt \/ r = Exit 2).
Proof.
  unfold configure. unfold bind at 1.
  destruct (init_run start) as (sch & tr & -> & Htr).
  unfold bind. rewrite defineFlags_run. simpl.
  match goal with
  | |- context [flag_Parse w args ?s] =>
      destruct (flag_Parse_run args s) as (f & r & -> & Hr)
  end.
  exists f, sch, tr, r. rewrite app_nil_r.
  split; [reflexivity | split; [exact Htr | exact Hr]].
Qed.

(** The process either stops at [flag.Parse] with status 2, or is [boot]
    run on the configuration. *)
Lemma process_cases args :
  exists f sch tr,
    Forall schemeEvent tr /\
    ((configuration w args = Some f /\
      process w args start = boot w (parsed f sch tr)) \/
     (configuration w args = None /\
      process w args start = (parsed f sch tr, Exit 2))).
Proof.
  destruct (configure_run args) as (f & sch & tr & r & E & Htr & Hr).
  exists f, sch, tr. split; [exact Htr | ].
  rewrite process_configure_boot. unfold configuration, bind. rewrite E.
  destruct Hr as [-> | ->]; [left | right]; split; reflexivity.
Qed.

Lemma configure_unset {X} (proj : Flags -> X) (name : string) args :
  owns w name proj -> ~ In name (map fst args) ->
  proj (flags (exec (configure w args) start)) = proj defaults.
Proof.
  intros Hown Hn. unfold configure, exec. unfold bind at 1.
  destruct (init_run start) as (sch & tr & -> & _).
  unfold bind. rewrite defineFlags_run.
  match goal with
  | |- context [flag_Parse w args ?s] =>
      change (proj (flags (exec (flag_Parse w args) s)) = proj defaults);
      rewrite (flag_Parse_unset proj name Hown args s)
  end; trivial.
Qed.

(** After [flag.Parse] nothing writes to the flag variables. *)
Lemma stable_flags_boot (f : Flags) : stable (fun s => flags s = f) (boot w).
Proof.
  unfold boot, startProfiler, runManager, setupChecks, setupReconcilers,
    setupWebhooks.
  stable_auto.
Qed.

End Configure.

Lemma process_unset {X} w (proj : Flags -> X) (name : string) args :
  owns w name proj -> ~ In name (map fst args) ->
  proj (flags (exec (process w args) start)) = proj defaults.
Proof.
  intros Hown Hn. rewrite exec_process.
  rewrite <- (configure_unset w proj name args Hown Hn).
  unfold exec, bind.
  destruct (configure w args start) as [s1 [[] | code]]; [ | reflexivity].
  simpl. f_equal.
  apply (wp_exec (boot w) (fun s => flags s = flags s1)).
  apply stable_flags_boot. reflexivity.
Qed.

(** Each flag writes to its own variable only. *)
Ltac own_flag :=
  let n := fresh "n" in
  let Hl := fresh "Hl" in
  let Hn := fresh "Hn" in
  let Hs := fresh "Hs" in
  intros n ? ? ? ? Hl Hn Hs; unfold flagSet in Hl; cbn [lookupFlag] in Hl;
  repeat
    (match type of Hl with
     | (if String.eqb ?a n then _ else _) = _ =>
         destruct (String.eqb_spec a n) as [<- | _];
         [ injection Hl as <-; try (exfalso; apply Hn; reflexivity);
           cbn [setFlag] in Hs;
           repeat match type of Hs with
                  | option_map _ ?o = _ => destruct o; cbn [option_map] in Hs
                  end;
           try discriminate; injection Hs as <-; reflexivity
         | ]
     end);
  discriminate.

(** C8: a flag that the command line leaves unset has its documented
    default in the configuration: metrics address ":8080", leader election
    off, namespace and profiler address empty, each of the five per-kind
    concurrency bounds 10, sync period 10 minutes (in nanoseconds), webhook
    port 0 and health address ":9440". *)
Theorem unset_flags_take_defaults (w : World) (args : list (string * string)) :
  let f := flags (exec (process w args) start) in
  let unset name := ~ In name (map fst args) in
  (unset "metrics-addr" -> metricsAddr f = ":8080") /\
  (unset "enable-leader-election" -> enableLeaderElection f = false) /\
  (unset "namespace" -> watchNamespace f = "") /\
  (unset "profiler-address" -> profilerAddress f = "") /\
  (unset "cluster-concurrency" -> clusterConcurrency f = 10) /\
  (unset "machine-concurrency" -> machineConcurrency f = 10) /\
  (unset "machineset-concurrency" -> machineSetConcurrency f = 10) /\
  (unset "machinedeployment-concurrency" -> machineDeploymentConcurrency f = 10) /\
  (unset "machinepool-concurrency" -> machinePoolConcurrency f = 10) /\
  (unset "sync-period" -> syncPeriod f = 10 * 60 * 1000000000) /\
  (unset "webhook-port" -> webhookPort f = 0) /\
  (unset "health-addr" -> healthAddr f = ":9440").
Proof.
  cbv zeta. repeat split; intros Hn.
  - apply (process_unset w metricsAddr "metrics-addr"); [own_flag | exact Hn].
  - apply (process_unset w enableLeaderElection "enable-leader-election");
      [own_flag | exact Hn].
  - apply (process_unset w watchNamespace "namespace"); [own_flag | exact Hn].
  - apply (process_unset w profilerAddress "profiler-address"); [own_flag | exact Hn].
  - apply (process_unset w clusterConcurrency "cluster-concurrency");
      [own_flag | exact Hn].
  - apply (process_unset w machineConcurrency "machine-concurrency");
      [own_flag | exact Hn].
  - apply (process_unset w machineSetConcurrency "machineset-concurrency");
      [own_flag | exact Hn].
  - apply (process_unset w machineDeploymentConcurrency "machinedeployment-concurrency");
      [own_flag | exact Hn].
  - apply (process_unset w machinePoolConcurrency "machinepool-concurrency");
      [own_flag | exact Hn].
  - apply (process_unset w syncPeriod "sync-period"); [own_flag | exact Hn].
  - apply (process_unset w webhookPort "webhook-port"); [own_flag | exact Hn].
  - apply (process_unset w healthAddr "health-addr"); [own_flag | exact Hn].
Qed.

(** ** Concurrency bounds *)

Section Bounds.

Variable w : World.

Lemma stable_ownBounds_setupReconcilers mgr :
  stable ownBounds (setupReconcilers w mgr).
Proof.
  intros s Hs. unfold wp, setupReconcilers, bind, read.
  destruct (negb (webhookPort (flags s) =? 0)); [exact Hs | ].
  unfold orExit, bind, call, setupLog_Error, os_Exit, ret.
  repeat
    (match goal with
     | |- context [outcome w ?c] => destruct (outcome w c)
     end;
     cbn [effect record flags controllers fst snd];
     try (unfold ownBounds; cbn [flags controllers record];
          repeat (apply Forall_app; split);
          first [exact Hs | repeat constructor])).
Qed.

Lemma stable_ownBounds_boot : stable ownBounds (boot w).
Proof.
  unfold boot, startProfiler, runManager, setupChecks, setupWebhooks.
  stable_auto.
  apply stable_ownBounds_setupReconcilers.
Qed.

End Bounds.

(** C5: every controller is bound with the concurrency flag of its own
    kind as [MaxConcurrentReconciles]: [concurrency] passes its argument
    through, each binding of the process carries the value of the flag of
    its kind, and so the bound of a binding is the same in any two runs in
    which the flag of its kind is the same, whatever the other flags are. *)
Theorem bindings_bound_by_own_flag (w : World) (args : list (string * string)) :
  let s := exec (process w args) start in
  (forall c, MaxConcurrentReconciles (concurrency c) = c) /\
  (forall b, In b (controllers s) ->
     MaxConcurrentReconciles (options b) = ownConcurrency (kind (reconciler b)) (flags s)) /\
  (forall w' args' b b',
     let s' := exec (process w' args') start in
     In b (controllers s) -> In b' (controllers s') ->
     kind (reconciler b) = kind (reconciler b') ->
     ownConcurrency (kind (reconciler b)) (flags s) =
       ownConcurrency (kind (reconciler b)) (flags s') ->
     MaxConcurrentReconciles (options b) = MaxConcurrentReconciles (options b')).
Proof.
  assert (H : forall w0 args0, ownBounds (exec (process w0 args0) start)).
  { intros w0 args0. rewrite exec_process. apply wp_exec.
    apply wp_after with (Inv := unregistered).
    - apply stable_unregistered_configure.
    - split; reflexivity.
    - intros _ t [Hc _]. unfold ownBounds. rewrite Hc. constructor.
    - intros _ t [Hc _]. apply stable_ownBounds_boot.
      unfold ownBounds. rewrite Hc. constructor. }
  cbv zeta. split; [reflexivity | split].
  - intros b Hb. specialize (H w args). unfold ownBounds in H.
    rewrite Forall_forall in H. apply H, Hb.
  - intros w' args' b b' Hb Hb' Hk Hf.
    pose proof (H w args) as H1. pose proof (H w' args') as H2.
    unfold ownBounds in H1, H2. rewrite Forall_forall in H1, H2.
    rewrite (H1 b Hb), (H2 b' Hb'), <- Hk. exact Hf.
Qed.

(** ** The leader-election lock *)

Lemma recording_oneLock : recording sameLock oneLock.
Proof. intros e s He Hs. constructor; assumption. Qed.

#[local] Hint Resolve recording_oneLock : frames.

Lemma schemeEvent_sameLock e : schemeEvent e -> sameLock e.
Proof. intros (b & r & ->) config opts r' E. discriminate E. Qed.

Lemma stable_oneLock_boot w : stable oneLock (boot w).
Proof.
  unfold boot, startProfiler, runManager, setupChecks, setupReconcilers,
    setupWebhooks.
  stable_auto.
  all: unfold sameLock; intros; try discriminate.
  match goal with
  | H : exists s, managerOptions w s = _, E : ECall _ _ = ECall _ _ |- _ =>
      destruct H as [s Hs]; injection E as _ <- _;
      unfold managerOptions in Hs; injection Hs as <-; reflexivity
  end.
Qed.

(** C10: the manager is built with the leader-election identity
    "controller-leader-election-capi", whatever the flags: the options
    literal of [main] carries it in every state, and every construction of a
    manager that the process performs, for any command line and any answers
    of the other packages, is called with it. *)
Theorem leader_election_id_fixed (w : World) (args : list (string * string)) :
  (forall s, exists opts,
     managerOptions w s = (s, Ret opts) /\
     LeaderElectionID opts = "controller-leader-election-capi") /\
  (forall config opts r,
     In (ECall (NewManager config opts) r) (trace (exec (process w args) start)) ->
     LeaderElectionID opts = "controller-leader-election-capi").
Proof.
  split.
  - intros s. eexists. split; reflexivity.
  - assert (H : oneLock (exec (process w args) start)).
    { unfold exec.
      destruct (process_cases w args) as (f & sch & tr & Htr & [[_ ->] | [_ ->]]).
      - apply (wp_exec (boot w) oneLock). apply stable_oneLock_boot.
        unfold oneLock. simpl. revert Htr. apply Forall_impl.
        exact schemeEvent_sameLock.
      - unfold oneLock. simpl. revert Htr. apply Forall_impl.
        exact schemeEvent_sameLock. }
    intros config opts r Hin. unfold oneLock in H. rewrite Forall_forall in H.
    exact (H _ Hin config opts r eq_refl).
Qed.

(** ** The profiler *)

Section Profiler.

Variable w : World.

Lemma stable_goroutines_runManager (g : list Goroutine) :
  stable (fun s => goroutines s = g) (runManager w).
Proof.
  unfold runManager, setupChecks, setupReconcilers, setupWebhooks. stable_auto.
Qed.

Lemma startProfiler_run f sch tr :
  wp startProfiler (fun _ s => goroutines s = sidecars f) (fun _ _ => False)
     (record ESetLogger (parsed f sch tr)).
Proof.
  unfold wp, startProfiler, bind, read, sidecars. cbn [flags record parsed].
  destruct (String.eqb (profilerAddress f) ""); reflexivity.
Qed.

Lemma boot_goroutines f sch tr :
  goroutines (exec (boot w) (parsed f sch tr)) = sidecars f.
Proof.
  apply (wp_exec (boot w) (fun s => goroutines s = sidecars f)).
  unfold boot. apply wp_bind. unfold wp at 1. cbn [ctrl_SetLogger].
  apply wp_seq with (P := fun _ s => goroutines s = sidecars f).
  - generalize (startProfiler_run f sch tr). apply wp_mono; [trivial | contradiction].
  - intros _ t Ht. apply stable_goroutines_runManager, Ht.
Qed.

End Profiler.

(** C9: the profiler is started exactly when a profiler address is
    configured, as a goroutine that [main] does not wait for. Its body logs
    the error of [http.ListenAndServe] and returns, it never exits the
    process; and what [main] does, its exit status and trace included, is the
    same whatever [http.ListenAndServe] returns. *)
Theorem profiler_detached (w : World) (args : list (string * string)) :
  (forall cfg, configuration w args = Some cfg ->
     goroutines (exec (process w args) start) = sidecars cfg /\
     (In ProfilerEndpoint (goroutines (exec (process w args) start)) <->
      profilerAddress cfg <> "")) /\
  (forall s,
     goroutineBody w ProfilerEndpoint s =
       (record (EKlogInfo (http_ListenAndServe w (profilerAddress (flags s)))) s,
        Ret tt)) /\
  (forall lis, process (withListenAndServe lis w) args start = process w args start).
Proof.
  split; [ | split].
  - intros cfg Hcfg.
    assert (H : goroutines (exec (process w args) start) = sidecars cfg).
    { unfold exec.
      destruct (process_cases w args) as (f & sch & tr & _ & [[Hf ->] | [Hf _]]).
      - rewrite Hcfg in Hf. injection Hf as <-. apply boot_goroutines.
      - rewrite Hcfg in Hf. discriminate Hf. }
    split; [exact H | ]. rewrite H. unfold sidecars.
    destruct (String.eqb_spec (profilerAddress cfg) "") as [E | E].
    + split; [intros [] | intros Hne; contradiction].
    + split; [intros _; exact E | intros _; left; reflexivity].
  - intros s. reflexivity.
  - intros lis. reflexivity.
Qed.

(** ** Fatal boot errors *)




Lemma recording_booting : recording quiet booting.
Proof. intros e s He Hs. constructor; assumption. Qed.

#[local] Hint Resolve recording_booting : frames.



Section Fatal.

Variable w : World.









End Fatal.




(** ** What each mode registers *)

(** *** Running the boot step by step *)

Section Steps.

Variable w : World.
Variable X : Z -> Proc -> Prop.

Lemma wp_unit (m : M unit) (Q : unit -> Proc -> Prop) s s' :
  m s = (s', Ret tt) -> Q tt s' -> wp m Q X s.
Proof. intros E H. unfold wp. rewrite E. exact H. Qed.

(** A stage: either it succeeds, or the process exits with 1 after the line
    in the log. *)
Lemma wp_stage (c : Call) msg kv (Q : unit -> Proc -> Prop) s :
  (outcome w c = None -> Q tt (record (ECall c None) (effect c s))) ->
  (forall err, outcome w c = Some err ->
     X 1 (record (ESetupLogError err msg kv) (record (ECall c (Some err)) s))) ->
  wp (orExit (call w c) msg kv) Q X s.
Proof.
  intros Hok Herr.
  unfold wp, orExit, bind, call, setupLog_Error, os_Exit, ret.
  destruct (outcome w c) as [err | ]; [apply Herr | apply Hok]; reflexivity.
Qed.

Lemma wp_ctrl_GetConfigOrDie (Q : restConfig -> Proc -> Prop) s :
  (forall config, kubeconfig w = Some config -> Q config s) ->
  (kubeconfig w = None -> X 1 (record (EDie "unable to get kubeconfig") s)) ->
  wp (ctrl_GetConfigOrDie w) Q X s.
Proof.
  intros Hok Herr. unfold wp, ctrl_GetConfigOrDie.
  destruct (kubeconfig w); [apply Hok | apply Herr]; reflexivity.
Qed.

Lemma wp_ctrl_NewManager config opts (Q : Manager + error -> Proc -> Prop) s :
  (outcome w (NewManager config opts) = None ->
   Q (inl {| mgrConfig := config; mgrOptions := opts |})
     (record (ECall (NewManager config opts) None) s)) ->
  (forall err, outcome w (NewManager config opts) = Some err ->
     Q (inr err) (record (ECall (NewManager config opts) (Some err)) s)) ->
  wp (ctrl_NewManager w config opts) Q X s.
Proof.
  intros Hok Herr. unfold wp, ctrl_NewManager, bind, call, ret.
  destruct (outcome w (NewManager config opts)) as [err | ];
    [apply Herr | apply Hok]; reflexivity.
Qed.

Lemma wp_managerOptions (Q : ctrlOptions -> Proc -> Prop) s :
  (forall opts, Q opts s) -> wp (managerOptions w) Q X s.
Proof. intros H. unfold wp, managerOptions. apply H. Qed.

End Steps.

(** The state in normal form: without it every step would copy the state
    into the next one. *)
Ltac tidy :=
  cbv beta;
  cbn [record effect spawn parsed flags formal scheme controllers webhooks
       readyzChecks healthzChecks goroutines trace app].

(** The run loop is not in a trace made of stages and lines of the log. *)
Ltac not_started :=
  let Hin := fresh "Hin" in
  intros (? & ? & Hin); exfalso;
  cbn [trace record effect parsed spawn] in Hin;
  repeat (destruct Hin as [Hin | Hin]; [discriminate Hin | ]);
  lazymatch goal with
  | Htr : Forall schemeEvent _ |- _ =>
      rewrite Forall_forall in Htr;
      destruct (Htr _ Hin) as (? & ? & ?); discriminate
  end.

(** The call cannot have failed in a world in which no call fails. *)
Ltac not_failed :=
  lazymatch goal with
  | H : forall c, outcome ?w c = None, E : outcome ?w _ = Some _ |- _ =>
      rewrite H in E; discriminate E
  | H : kubeconfig ?w <> None, E : kubeconfig ?w = None |- _ =>
      contradiction
  end.

Ltac dead_end := first [not_failed | not_started].

(** One step of the boot. The branches in which the process exits are
    closed at once when they cannot be, or cannot matter. *)
Ltac run_step :=
  tidy;
  lazymatch goal with
  | |- wp (bind _ _) _ _ _ => apply wp_bind
  | |- wp (ret _) _ _ _ => apply wp_ret
  | |- wp (os_Exit _) _ _ _ => apply wp_exit; try dead_end
  | |- wp (read _) _ _ _ => apply wp_read
  | |- wp (orExit (call _ _) _ _) _ _ _ =>
      apply wp_stage; [intros ? | intros ? ?; try dead_end]
  | |- wp (ctrl_GetConfigOrDie _) _ _ _ =>
      apply wp_ctrl_GetConfigOrDie; [intros ? ? | intros ?; try dead_end]
  | |- wp (ctrl_NewManager _ _ _) _ _ _ =>
      apply wp_ctrl_NewManager; [intros ? | intros ? ?]
  | |- wp (managerOptions _) _ _ _ => apply wp_managerOptions; intros ?
  | |- wp ctrl_SetLogger _ _ _ => eapply wp_unit; [reflexivity | ]
  | |- wp (klog_Info _) _ _ _ => eapply wp_unit; [reflexivity | ]
  | |- wp (setupLog_Info _) _ _ _ => eapply wp_unit; [reflexivity | ]
  | |- wp (setupLog_Error _ _ _) _ _ _ => eapply wp_unit; [reflexivity | ]
  | |- wp (go _) _ _ _ => eapply wp_unit; [reflexivity | ]
  | |- wp (if negb (String.eqb ?a ?b) then _ else _) _ _ _ =>
      destruct (String.eqb a b); cbn [negb]
  | |- wp (if _ then _ else _) _ _ _ =>
      repeat match goal with
             | H : webhookPort _ = 0 |- _ => rewrite H
             | H : webhookPort _ <> 0 |- _ => rewrite (proj2 (Z.eqb_neq _ _) H)
             end;
      cbn [negb Z.eqb]
  | |- wp (setupChecks _ _) _ _ _ => unfold setupChecks
  | |- wp (setupReconcilers _ _) _ _ _ => unfold setupReconcilers
  | |- wp (setupWebhooks _ _) _ _ _ => unfold setupWebhooks
  | |- wp (runManager _) _ _ _ => unfold runManager
  | |- wp startProfiler _ _ _ => unfold startProfiler
  | |- wp (boot _) _ _ _ => unfold boot
  end.

Ltac run := repeat run_step; tidy.

Section Modes.

Variable w : World.
Variables (f : Flags) (sch : list SchemeBuilder) (tr : list Event).
Hypothesis tr_scheme : Forall schemeEvent tr.

(** Without a webhook port, a boot that reaches the run loop has bound the
    five controllers, each with the flag of its kind, and no webhook. *)
Lemma boot_reconciler_mode :
  webhookPort f = 0 ->
  let s := exec (boot w) (parsed f sch tr) in
  started s ->
  bounds s = map (fun k => (k, ownConcurrency k f)) reconcilerKinds /\
  webhooks s = [].
Proof.
  intros Hport. pose proof tr_scheme as Htr. cbv zeta.
  apply (wp_exec (boot w)
           (fun s => started s ->
                     bounds s = map (fun k => (k, ownConcurrency k f)) reconcilerKinds /\
                     webhooks s = [])).
  run; intros _; split; reflexivity.
Qed.



(** Whatever fails, the controllers bound so far are the first of the five,
    in order. *)
Lemma boot_reconcilers_prefix :
  webhookPort f = 0 ->
  exists n,
    map (fun b => kind (reconciler b)) (controllers (exec (boot w) (parsed f sch tr)))
      = firstn n reconcilerKinds.
Proof.
  intros Hport.
  apply (wp_exec (boot w)
           (fun s => exists n,
                map (fun b => kind (reconciler b)) (controllers s)
                  = firstn n reconcilerKinds)).
  run;
    first [ exists 0%nat; reflexivity | exists 1%nat; reflexivity
          | exists 2%nat; reflexivity | exists 3%nat; reflexivity
          | exists 4%nat; reflexivity | exists 5%nat; reflexivity ].
Qed.


End Modes.

Lemma startedb_started s : startedb s = true -> started s.
Proof.
  unfold startedb, started. rewrite existsb_exists.
  intros (e & Hin & He). destruct e as [c r | | | | | | ]; try discriminate.
  destruct c; try discriminate. eauto.
Qed.

(** A configured process is its boot. *)
Lemma configured_process w args cfg :
  configuration w args = Some cfg ->
  exists sch tr,
    Forall schemeEvent tr /\ process w args start = boot w (parsed cfg sch tr).
Proof.
  intros Hcfg.
  destruct (process_cases w args) as (f & sch & tr & Htr & [[Hf E] | [Hf _]]).
  - rewrite Hcfg in Hf. injection Hf as <-. exists sch, tr. split; assumption.
  - rewrite Hcfg in Hf. discriminate Hf.
Qed.


(** A configured process keeps its configuration and stays in its mode. *)
Lemma configured_modal w args cfg :
  configuration w args = Some cfg ->
  flags (exec (process w args) start) = cfg /\
  (webhookPort cfg = 0 -> webhooks (exec (process w args) start) = []) /\
  (webhookPort cfg <> 0 -> controllers (exec (process w args) start) = []).
Proof.
  intros Hcfg.
  assert (Hf : flags (exec (process w args) start) = cfg).
  { unfold exec.
    destruct (configured_process w args cfg Hcfg) as (sch & tr & Htr & ->).
    apply (wp_exec (boot w) (fun s => flags s = cfg)).
    apply stable_flags_boot. reflexivity. }
  assert (Hm : modal (exec (process w args) start)).
  { rewrite exec_process. apply wp_exec.
    apply wp_after with (Inv := unregistered).
    - apply stable_unregistered_configure.
    - split; reflexivity.
    - intros _ t Ht. apply unregistered_modal, Ht.
    - intros _ t Ht. apply stable_modal_boot, unregistered_modal, Ht. }
  unfold modal in Hm. rewrite Hf in Hm. split; [exact Hf | exact Hm].
Qed.



(** C4: with a zero webhook port, a boot that reaches the run loop has
    registered exactly five controllers, one for each of cluster, machine,
    machine set, machine deployment and machine pool, in this order, and no
    webhook. A boot that a fatal error stops before the run loop has no
    webhook either, and its controllers are the first of these five. *)
Theorem reconciler_mode_registers_five (w : World) (args : list (string * string))
    (cfg : Flags) :
  configuration w args = Some cfg ->
  webhookPort cfg = 0 ->
  let s := exec (process w args) start in
  let kinds := map (fun b => kind (reconciler b)) (controllers s) in
  (started s -> kinds = reconcilerKinds /\ List.length (controllers s) = 5%nat) /\
  (exists n, kinds = firstn n reconcilerKinds) /\
  webhooks s = [].
Proof.
  intros Hcfg Hport. cbv zeta.
  destruct (configured_modal w args cfg Hcfg) as (_ & Hm & _).
  specialize (Hm Hport). unfold exec in *.
  destruct (configured_process w args cfg Hcfg) as (sch & tr & Htr & E).
  rewrite E in *. split; [ | split; [ | exact Hm]].
  - intros Hs.
    destruct (boot_reconciler_mode w cfg sch tr Htr Hport Hs) as [Hb _].
    unfold exec in Hb.
    assert (Hk : map (fun b => kind (reconciler b))
                     (controllers (fst (boot w (parsed cfg sch tr))))
                 = reconcilerKinds).
    { apply (f_equal (map fst)) in Hb. unfold bounds in Hb.
      rewrite !map_map in Hb. simpl in Hb. exact Hb. }
    split; [exact Hk | ].
    apply (f_equal (@List.length _)) in Hk. rewrite length_map in Hk. exact Hk.
  - exact (boot_reconcilers_prefix w cfg sch tr Hport).
Qed.



(** ** The theorems at work *)

Ltac pick := repeat first [left; reflexivity | right].

Ltac absent :=
  let H := fresh "H" in
  simpl; intros H; repeat (destruct H as [H | H]; [discriminate H | ]); exact H.

(** The boot modes at work: a process with webhook port 9443 and one
    without. *)
Lemma boot_modes_exclusive_witness :
  exec (setupReconcilers calm (managerOf calm defaults))
       (exec (configure calm webhookArgs) start)
    = exec (configure calm webhookArgs) start /\
  exec (setupWebhooks calm (managerOf calm defaults)) (exec (configure calm []) start)
    = exec (configure calm []) start /\
  exclusive (exec (process calm webhookArgs) start).
Proof.
  destruct (boot_modes_exclusive calm webhookArgs) as (H1 & H2 & H3).
  split; [ | split].
  - apply H1. vm_compute. discriminate.
  - apply H2. vm_compute. reflexivity.
  - exact H3.
Defined.

(** The split client of the calm world. *)
Lemma split_client_routes_witness :
  exists dc,
    newClientFunc calm (InformerCache 0) calmConfig {| optScheme := calmScheme |} = inl dc /\
    serve dc Get = ServedByCache (InformerCache 0) /\
    serve dc Update = ServedByStore (DirectClient calmConfig {| optScheme := calmScheme |}) /\
    serve dc StatusUpdate = ServedByStore (DirectClient calmConfig {| optScheme := calmScheme |}).
Proof.
  eexists. split; [reflexivity | ].
  destruct (split_client_routes calm (InformerCache 0) calmConfig
              {| optScheme := calmScheme |} _ eq_refl)
    as (_ & _ & _ & _ & Hr & Hw).
  split; [apply Hr; reflexivity | split; apply Hw; discriminate].
Defined.


(** The controllers of a process started without a flag. *)
Lemma reconciler_mode_registers_five_witness :
  map (fun b => kind (reconciler b)) (controllers (exec (process calm []) start))
    = reconcilerKinds /\
  List.length (controllers (exec (process calm []) start)) = 5%nat /\
  webhooks (exec (process calm []) start) = [].
Proof.
  assert (Hcfg : configuration calm [] = Some defaults) by (vm_compute; reflexivity).
  assert (Hport : webhookPort defaults = 0) by reflexivity.
  assert (Hs : started (exec (process calm []) start))
    by (apply startedb_started; vm_compute; reflexivity).
  destruct (reconciler_mode_registers_five calm [] _ Hcfg Hport) as (H & _ & Hw).
  destruct (H Hs) as [Hk Hl].
  split; [exact Hk | split; [exact Hl | exact Hw]].
Defined.

(** The bounds of two processes whose cluster and machine flags differ:
    the machine sets get the same bound. *)
Lemma bindings_bound_by_own_flag_witness :
  let b := {| reconciler := reconcilerOf ClusterReconciler "Cluster" (managerOf calm defaults);
              options := concurrency 10 |} in
  let b' := {| reconciler :=
                 reconcilerOf MachineSetReconciler "MachineSet" (managerOf calm defaults);
               options := concurrency 10 |} in
  let b'' := {| reconciler :=
                 reconcilerOf MachineSetReconciler "MachineSet"
                    (managerOf calm (set_machineConcurrency (-3) (set_clusterConcurrency 0 defaults)));
               options := concurrency 10 |} in
  In b (controllers (exec (process calm []) start)) /\
  MaxConcurrentReconciles (options b) = clusterConcurrency (flags (exec (process calm []) start)) /\
  MaxConcurrentReconciles (options b') = MaxConcurrentReconciles (options b'').
Proof.
  cbv zeta.
  destruct (bindings_bound_by_own_flag calm []) as (_ & H1 & H2).
  assert (Hin : In {| reconciler := reconcilerOf ClusterReconciler "Cluster" (managerOf calm defaults);
                      options := concurrency 10 |}
                   (controllers (exec (process calm []) start)))
    by (vm_compute; pick).
  split; [exact Hin | split].
  - exact (H1 _ Hin).
  - apply (H2 calm lenientArgs).
    + vm_compute; pick.
    + vm_compute; pick.
    + reflexivity.
    + vm_compute; reflexivity.
Defined.



(** The flags of a process started with a webhook port only, and the
    webhook port of one started without a flag. *)
Lemma unset_flags_take_defaults_witness :
  let f := flags (exec (process calm webhookArgs) start) in
  metricsAddr f = ":8080" /\ enableLeaderElection f = false /\
  watchNamespace f = "" /\ profilerAddress f = "" /\
  clusterConcurrency f = 10 /\ machineConcurrency f = 10 /\
  machineSetConcurrency f = 10 /\ machineDeploymentConcurrency f = 10 /\
  machinePoolConcurrency f = 10 /\ syncPeriod f = 10 * 60 * 1000000000 /\
  webhookPort (flags (exec (process calm []) start)) = 0 /\
  healthAddr f = ":9440".
Proof.
  cbv zeta.
  destruct (unset_flags_take_defaults calm webhookArgs)
    as (H1 & H2 & H3 & H4 & H5 & H6 & H7 & H8 & H9 & H10 & _ & H12).
  destruct (unset_flags_take_defaults calm [])
    as (_ & _ & _ & _ & _ & _ & _ & _ & _ & _ & H11 & _).
  split; [apply H1; absent | ]. split; [apply H2; absent | ].
  split; [apply H3; absent | ]. split; [apply H4; absent | ].
  split; [apply H5; absent | ]. split; [apply H6; absent | ].
  split; [apply H7; absent | ]. split; [apply H8; absent | ].
  split; [apply H9; absent | ]. split; [apply H10; absent | ].
  split; [apply H11; absent | apply H12; absent].
Defined.

(** A process started with a profiler address, and one without. *)
Lemma profiler_detached_witness :
  goroutines (exec (process calm profilerArgs) start) = [ProfilerEndpoint] /\
  goroutines (exec (process calm []) start) = [] /\
  (In ProfilerEndpoint (goroutines (exec (process calm profilerArgs) start)) <->
   "localhost:6060" <> "").
Proof.
  destruct (profiler_detached calm profilerArgs) as [H _].
  destruct (profiler_detached calm []) as [H' _].
  assert (Hcfg : configuration calm profilerArgs
                 = Some (set_profilerAddress "localhost:6060" defaults))
    by (vm_compute; reflexivity).
  assert (Hcfg' : configuration calm [] = Some defaults) by (vm_compute; reflexivity).
  destruct (H _ Hcfg) as [H1 H2]. destruct (H' _ Hcfg') as [H3 _].
  split; [exact H1 | split; [exact H3 | exact H2]].
Defined.

(** The manager of a process started with webhook port 9443. *)
Lemma leader_election_id_fixed_witness :
  In (ECall (NewManager calmConfig (optionsOf calm (set_webhookPort 9443 defaults) calmScheme)) None)
     (trace (exec (process calm webhookArgs) start)) /\
  LeaderElectionID (optionsOf calm (set_webhookPort 9443 defaults) calmScheme)
    = "controller-leader-election-capi".
Proof.
  assert (Hin : In (ECall (NewManager calmConfig
                             (optionsOf calm (set_webhookPort 9443 defaults) calmScheme)) None)
                   (trace (exec (process calm webhookArgs) start)))
    by (vm_compute; pick).
  split; [exact Hin | ].
  destruct (leader_election_id_fixed calm webhookArgs) as [_ H].
  exact (H _ _ _ Hin).
Defined.

(** * More of main.go *)

(** ** [init] *)


(** ** The command line *)

Section CommandLine.

Variable w : World.

(** [configure] is [flag.Parse] run on the default flags. *)
Lemma configure_parse args :
  exists s,
    formal s = flagSet /\ flags s = defaults /\
    configure w args start = flag_Parse w args s.
Proof.
  unfold configure. unfold bind at 1.
  destruct (init_run w start) as (sch & tr & -> & _).
  unfold bind. rewrite defineFlags_run. eexists. split; [ | split; [ | reflexivity]];
    reflexivity.
Qed.

Lemma flag_Parse_formal args s :
  formal (exec (flag_Parse w args) s) = formal s.
Proof.
  unfold exec. destruct (flag_Parse_run w args s) as (f & r & -> & _). reflexivity.
Qed.


(** The argument that names a flag last decides the variable of the flag. *)
Lemma flag_Parse_given {X} (proj : Flags -> X) (name : string) (v : FlagVar) :
  lookupFlag name flagSet = Some v ->
  owns w name proj ->
  forall pre text post s s',
    formal s = flagSet ->
    flag_Parse w (pre ++ (name, text) :: post) s = (s', Ret tt) ->
    ~ In name (map fst post) ->
    exists upd f, setFlag w v text = Some upd /\ proj (flags s') = proj (upd f).
Proof.
  intros Hl Hown pre text post. induction pre as [ | [n t] pre IH]; intros s s' Hf E Hn.
  - cbn [app flag_Parse] in E. rewrite Hf, Hl in E.
    destruct (setFlag w v text) as [upd | ]; [ | discriminate E].
    exists upd, (flags s). split; [reflexivity | ].
    pose proof (flag_Parse_unset w proj name Hown post (assign upd s) Hf Hn) as H.
    unfold exec in H. rewrite E in H. exact H.
  - cbn [app flag_Parse] in E.
    destruct (lookupFlag n (formal s)) as [v0 | ]; [ | discriminate E].
    destruct (setFlag w v0 t) as [upd0 | ]; [ | discriminate E].
    apply (IH (assign upd0 s) s'); assumption.
Qed.

End CommandLine.


(** X3: a flag given on the command line sets its own variable, and the
    last argument that names it wins: the variable holds the text of that
    argument for a string flag, and what the text converts to for a boolean,
    integer or duration flag. *)
Theorem given_flags_set_variables (w : World)
    (pre post : list (string * string)) (name text : string) (cfg : Flags) :
  configuration w (pre ++ (name, text) :: post) = Some cfg ->
  ~ In name (map fst post) ->
  (name = "metrics-addr" -> metricsAddr cfg = text) /\
  (name = "enable-leader-election" ->
     ParseBool w text = Some (enableLeaderElection cfg)) /\
  (name = "namespace" -> watchNamespace cfg = text) /\
  (name = "profiler-address" -> profilerAddress cfg = text) /\
  (name = "cluster-concurrency" -> ParseInt w text = Some (clusterConcurrency cfg)) /\
  (name = "machine-concurrency" -> ParseInt w text = Some (machineConcurrency cfg)) /\
  (name = "machineset-concurrency" ->
     ParseInt w text = Some (machineSetConcurrency cfg)) /\
  (name = "machinedeployment-concurrency" ->
     ParseInt w text = Some (machineDeploymentConcurrency cfg)) /\
  (name = "machinepool-concurrency" ->
     ParseInt w text = Some (machinePoolConcurrency cfg)) /\
  (name = "sync-period" -> ParseDuration w text = Some (syncPeriod cfg)) /\
  (name = "webhook-port" -> ParseInt w text = Some (webhookPort cfg)) /\
  (name = "health-addr" -> healthAddr cfg = text).
Proof.
  intros Hcfg Hn. unfold configuration in Hcfg.
  destruct (configure_parse w (pre ++ (name, text) :: post)) as (s & Hf & _ & E).
  rewrite E in Hcfg.
  destruct (flag_Parse w (pre ++ (name, text) :: post) s) as [s' [[] | code]] eqn:Es;
    [ | discriminate Hcfg].
  injection Hcfg as <-.
  assert (G : forall X (proj : Flags -> X) v,
             lookupFlag name flagSet = Some v -> owns w name proj ->
             exists upd f, setFlag w v text = Some upd /\ proj (flags s') = proj (upd f)).
  { intros X proj v Hl Hown.
    exact (flag_Parse_given w proj name v Hl Hown pre text post s s' Hf Es Hn). }
  repeat match goal with
         | |- _ /\ _ => split
         end;
    intros ->;
    match goal with
    | |- ?p (flags s') = _ =>
        destruct (G _ p _ eq_refl ltac:(own_flag)) as (upd & f & Hs & ->)
    | |- _ = Some (?p (flags s')) =>
        destruct (G _ p _ eq_refl ltac:(own_flag)) as (upd & f & Hs & ->)
    end;
    cbn [setFlag] in Hs;
    repeat match type of Hs with
           | option_map _ ?o = _ => destruct o; cbn [option_map] in Hs
           end;
    try discriminate Hs; injection Hs as <-; reflexivity.
Qed.

(** ** The order of the boot *)

(** The event is in no trace made of stages and lines of the log. *)
Ltac close_in H :=
  cbn [trace record effect parsed spawn] in H;
  repeat (destruct H as [H | H]; [discriminate H | ]);
  lazymatch goal with
  | Htr : Forall schemeEvent _ |- _ =>
      rewrite Forall_forall in Htr;
      destruct (Htr _ H) as (? & ? & ?); discriminate
  end.

Section Order.

Variable w : World.
Variables (f : Flags) (sch : list SchemeBuilder) (tr : list Event).
Hypothesis tr_scheme : Forall schemeEvent tr.

Ltac checked_leaf :=
  unfold checked; tidy;
  split; [first [left; reflexivity | right; reflexivity] | ];
  split; [first [left; reflexivity | right; reflexivity] | ];
  split;
  [ first [ intros _; discriminate
          | let H := fresh in intros H; exfalso; apply H; reflexivity ]
  | first [ intros _; split; reflexivity
          | let H := fresh in
            intros [H | [H | H]];
            [ exfalso; apply H; reflexivity
            | exfalso; apply H; reflexivity
            | exfalso; destruct H as (? & ? & H); close_in H ] ] ].

Lemma boot_checked : checked (exec (boot w) (parsed f sch tr)).
Proof.
  pose proof tr_scheme as Htr.
  apply (wp_exec (boot w) checked).
  destruct (Z.eq_dec (webhookPort f) 0) as [Hport | Hport]; run; checked_leaf.
Qed.

End Order.

Section Ending.

Variable w : World.
Variables (f : Flags) (sch : list SchemeBuilder) (tr : list Event).
Hypothesis tr_scheme : Forall schemeEvent tr.



End Ending.

Lemma distinct_NoDup l : distinct l = true -> NoDup l.
Proof.
  induction l as [ | x rest IH]; intros H; [constructor | ].
  cbn [distinct] in H. apply andb_true_iff in H. destruct H as [Hx Hr].
  constructor; [ | apply IH, Hr].
  intros Hin. apply negb_true_iff in Hx.
  assert (Ht : existsb (fun y => if Stage_eq_dec x y then true else false) rest = true).
  { apply existsb_exists. exists x. split; [exact Hin | ].
    destruct (Stage_eq_dec x x) as [_ | Hne]; [reflexivity | contradiction]. }
  rewrite Ht in Hx. discriminate Hx.
Qed.

(** The events of [init] are its three calls. *)
Lemma init_events tr :
  map (fun e => match e with ECall c _ => Some c | _ => None end) tr
    = map (fun b => Some (AddToScheme b)) (rev builders) ->
  Forall schemeEvent tr /\
  stagesIn tr = [SScheme (clusterScheme clusterv1alpha3);
                 SScheme (clusterScheme clusterv1alpha2); SScheme clientgoscheme].
Proof.
  intros H.
  destruct tr as [ | e1 [ | e2 [ | e3 [ | e4 tr]]]]; try discriminate H.
  destruct e1 as [c1 r1 | | | | | | ]; try discriminate H.
  destruct e2 as [c2 r2 | | | | | | ]; try discriminate H.
  destruct e3 as [c3 r3 | | | | | | ]; try discriminate H.
  cbn in H. injection H as -> -> ->.
  split; [ | reflexivity].
  repeat constructor; do 2 eexists; reflexivity.
Qed.

(** What [init] leaves in any state. *)
Lemma init_run_scheme (w : World) (s : Proc) :
  exists tr,
    init w s =
      ({| flags := flags s; formal := formal s;
          scheme := scheme s ++ filter (accepted w) builders;
          controllers := controllers s; webhooks := webhooks s;
          readyzChecks := readyzChecks s; healthzChecks := healthzChecks s;
          goroutines := goroutines s; trace := tr ++ trace s |}, Ret tt) /\
    map (fun e => match e with ECall c _ => Some c | _ => None end) tr
      = map (fun b => Some (AddToScheme b)) (rev builders).
Proof.
  unfold init, bind, call, ret, builders, accepted. cbn [filter rev app map].
  destruct (outcome w (AddToScheme clientgoscheme));
    destruct (outcome w (AddToScheme (clusterScheme clusterv1alpha2)));
    destruct (outcome w (AddToScheme (clusterScheme clusterv1alpha3)));
    cbn [record effect flags formal scheme controllers webhooks readyzChecks
         healthzChecks goroutines trace app];
    eexists;
    (split;
     [ match goal with
       | |- (?st, _) = _ =>
           instantiate (1 := firstn 3 (trace st));
           cbn [firstn trace app]; rewrite <- ?app_assoc; cbn [app];
           try rewrite app_nil_r; reflexivity
       end
     | reflexivity ]).
Qed.

(** What [configure] leaves, with the scheme and the trace of [init]. *)
Lemma configure_run_init w args :
  exists f tr r,
    configure w args start = (parsed f (filter (accepted w) builders) tr, r) /\
    Forall schemeEvent tr /\
    stagesIn tr = [SScheme (clusterScheme clusterv1alpha3);
                   SScheme (clusterScheme clusterv1alpha2); SScheme clientgoscheme] /\
    (r = Ret tt \/ r = Exit 2).
Proof.
  unfold configure. unfold bind at 1.
  destruct (init_run_scheme w start) as (tr & -> & Hcalls).
  destruct (init_events tr Hcalls) as [Htr Hst].
  unfold bind. rewrite defineFlags_run.
  match goal with
  | |- context [flag_Parse w args ?s] =>
      destruct (flag_Parse_run w args s) as (f & r & -> & Hr)
  end.
  exists f, tr, r.
  cbn [assign flags formal scheme controllers webhooks readyzChecks healthzChecks
       goroutines trace start app].
  rewrite app_nil_r.
  split; [reflexivity | split; [exact Htr | split; [exact Hst | exact Hr]]].
Qed.

(** Every process ends in a state that [boot] reaches from a parsed state,
    or in a parsed state; the scheme and the trace are those of [init]. *)
Lemma process_cases_init w args :
  exists f tr,
    Forall schemeEvent tr /\
    stagesIn tr = [SScheme (clusterScheme clusterv1alpha3);
                   SScheme (clusterScheme clusterv1alpha2); SScheme clientgoscheme] /\
    ((configuration w args = Some f /\
      process w args start = boot w (parsed f (filter (accepted w) builders) tr)) \/
     (configuration w args = None /\
      process w args start = (parsed f (filter (accepted w) builders) tr, Exit 2))).
Proof.
  destruct (configure_run_init w args) as (f & tr & r & E & Htr & Hst & Hr).
  exists f, tr. split; [exact Htr | split; [exact Hst | ]].
  rewrite process_configure_boot. unfold configuration, bind. rewrite E.
  destruct Hr as [-> | ->]; [left | right]; split; reflexivity.
Qed.

Section Wiring.

Variable w : World.
Variable cfg : Flags.

Lemma recording_allWired : recording (wired w cfg) (allWired w cfg).
Proof. intros e s He Hs. constructor; assumption. Qed.

Lemma schemeEvent_wired e : schemeEvent e -> wired w cfg e.
Proof. intros (b & r & ->) config opts r' E. discriminate E. Qed.

Lemma boot_allWired tr :
  Forall schemeEvent tr ->
  allWired w cfg (exec (boot w) (parsed cfg (filter (accepted w) builders) tr)).
Proof.
  intros Htr. pose proof recording_allWired as Hrec.
  set (J := fun s => allWired w cfg s /\ flags s = cfg /\
                     scheme s = filter (accepted w) builders).
  assert (HJ : recording (wired w cfg) J).
  { intros e s He (Ha & Hf & Hs). split; [constructor; assumption | split; assumption]. }
  assert (Hquiet : forall e, (forall config opts r, e <> ECall (NewManager config opts) r) ->
                             wired w cfg e).
  { intros e He config opts r E. destruct (He _ _ _ E). }
  apply (wp_exec (boot w) (allWired w cfg)).
  apply wp_mono with (Q := fun _ => J) (X := fun _ => J);
    [intros _ t Ht; apply Ht | intros _ t Ht; apply Ht | ].
  unfold boot. apply wp_after with (Inv := J).
  { stable_auto. apply Hquiet. discriminate. }
  { split; [ | split; reflexivity].
    unfold allWired. cbn [trace parsed]. revert Htr. apply Forall_impl.
    exact schemeEvent_wired. }
  { trivial. }
  intros _ t Ht. apply wp_after with (Inv := J); trivial.
  { unfold startProfiler. stable_auto; apply Hquiet; discriminate. }
  clear t Ht. intros _ t Ht. unfold runManager.
  apply wp_bind. apply wp_ctrl_GetConfigOrDie.
  - intros config Hconfig. apply wp_bind. unfold wp at 1. cbn [managerOptions].
    destruct Ht as (Ha & Hf & Hs).
    assert (St : stable J
              (bind (ctrl_NewManager w config (optionsOf w (flags t) (scheme t)))
                 (fun r =>
                    match r with
                    | inl mgr =>
                        bind (setupChecks w mgr)
                          (fun _ => bind (setupReconcilers w mgr)
                             (fun _ => bind (setupWebhooks w mgr)
                                (fun _ => bind (setupLog_Info "starting manager")
                                   (fun _ => orExit (call w (Start mgr))
                                               "problem running manager" []))))
                    | inr err =>
                        bind (setupLog_Error err "unable to start manager" [])
                          (fun _ => os_Exit 1)
                    end))).
    { unfold setupChecks, setupReconcilers, setupWebhooks. stable_auto.
      all: try (intros; apply Hquiet; discriminate).
      intros r config' opts' r' E. injection E as <- <- _.
      rewrite Hf, Hs. repeat split. exact Hconfig. }
    apply St. split; [exact Ha | split; [exact Hf | exact Hs]].
  - intros _. destruct Ht as (Ha & Hf & Hs).
    split; [ | split; assumption].
    apply Hrec; [ | exact Ha]. apply Hquiet. discriminate.
Qed.

End Wiring.

(** X6: the manager is built from the configuration. In every process,
    each construction of a manager is given the kubeconfig, the scheme with
    the builders that [init] saw accepted, the split-client factory, and the
    values of the flags: metrics address, leader election, namespace, sync
    period, webhook port as [Port] and health address; and the flag
    variables still hold the configuration when the process ends. *)
Theorem manager_built_from_configuration (w : World) (args : list (string * string))
    (cfg : Flags) :
  configuration w args = Some cfg ->
  let s := exec (process w args) start in
  flags s = cfg /\
  (forall config opts r,
     In (ECall (NewManager config opts) r) (trace s) ->
     kubeconfig w = Some config /\
     Scheme opts = filter (accepted w) builders /\
     MetricsBindAddress opts = metricsAddr cfg /\
     LeaderElection opts = enableLeaderElection cfg /\
     Namespace opts = watchNamespace cfg /\
     SyncPeriod opts = Some (syncPeriod cfg) /\
     NewClient opts = newClientFunc w /\
     Port opts = webhookPort cfg /\
     HealthProbeBindAddress opts = healthAddr cfg).
Proof.
  intros Hcfg. cbv zeta. split.
  - exact (proj1 (configured_modal w args cfg Hcfg)).
  - unfold exec.
    destruct (process_cases_init w args) as (f & tr & Htr & _ & [[Hf ->] | [Hf _]]).
    + rewrite Hcfg in Hf. injection Hf as <-.
      pose proof (boot_allWired w cfg tr Htr) as H. unfold allWired, exec in H.
      rewrite Forall_forall in H.
      intros config opts r Hin. exact (H _ Hin config opts r eq_refl).
    + rewrite Hcfg in Hf. discriminate Hf.
Qed.

Section Staff.

Variable w : World.
Variables (f : Flags) (sch : list SchemeBuilder) (tr : list Event).
Hypothesis tr_scheme : Forall schemeEvent tr.

Ltac staffed_leaf :=
  tidy;
  let b := fresh "b" in
  let Hb := fresh "Hb" in
  intros b Hb; cbn [In] in Hb;
  repeat (destruct Hb as [<- | Hb];
          [ split;
            [ reflexivity
            | do 2 eexists; split;
              [ cbn [trace]; repeat first [left; reflexivity | right]
              | reflexivity ] ]
          | ]);
  contradiction.

Lemma boot_staffed :
  forall b, In b (controllers (exec (boot w) (parsed f sch tr))) ->
            staffed (exec (boot w) (parsed f sch tr)) b.
Proof.
  pose proof tr_scheme as Htr.
  apply (wp_exec (boot w) (fun s => forall b, In b (controllers s) -> staffed s b)).
  destruct (Z.eq_dec (webhookPort f) 0) as [Hport | Hport]; run; staffed_leaf.
Qed.

(** Without a kubeconfig the process stops after the profiler. *)
Lemma boot_without_kubeconfig :
  kubeconfig w = None ->
  boot w (parsed f sch tr) =
    (record (EDie "unable to get kubeconfig")
       (exec startProfiler (record ESetLogger (parsed f sch tr))), Exit 1).
Proof.
  intros Hk.
  unfold boot, runManager, ctrl_GetConfigOrDie, exec. rewrite Hk.
  unfold bind, ctrl_SetLogger, startProfiler, bind, read.
  cbn [flags record parsed].
  destruct (String.eqb (profilerAddress f) ""); reflexivity.
Qed.

End Staff.

(** X4: the checks come first. In every process each of the two checks is
    registered once at most, under the name "ping"; the health check is
    registered only after the readiness check; and a process that has a
    controller or a webhook, or has reached the run loop, has both. *)
Theorem checks_come_first (w : World) (args : list (string * string)) :
  let s := exec (process w args) start in
  (readyzChecks s = [] \/ readyzChecks s = [("ping", healthz_Ping)]) /\
  (healthzChecks s = [] \/ healthzChecks s = [("ping", healthz_Ping)]) /\
  (healthzChecks s <> [] -> readyzChecks s <> []) /\
  (controllers s <> [] \/ webhooks s <> [] \/ started s ->
   readyzChecks s = [("ping", healthz_Ping)] /\
   healthzChecks s = [("ping", healthz_Ping)]).
Proof.
  cbv zeta. unfold exec.
  destruct (process_cases w args) as (f & sch & tr & Htr & [[_ ->] | [_ ->]]).
  - exact (boot_checked w f sch tr Htr).
  - cbn [fst readyzChecks healthzChecks controllers webhooks parsed].
    split; [left; reflexivity | split; [left; reflexivity | split]].
    + intros H. exfalso. apply H. reflexivity.
    + intros [H | [H | H]]; [exfalso; apply H; reflexivity | exfalso; apply H; reflexivity | ].
      exfalso. destruct H as (mgr & r & H). close_in H.
Qed.


(** X7: every controller is staffed by the manager. The reconciler of each
    binding logs under "controllers" and the name of its kind, and its
    client is the client of a manager whose construction succeeded earlier
    in the same process; so all the reconcilers of a process share the
    client of one manager. *)
Theorem controllers_staffed_by_manager (w : World) (args : list (string * string)) :
  let s := exec (process w args) start in
  forall b, In b (controllers s) ->
    Log (reconciler b) = ["controllers"; reconcilerName (kind (reconciler b))] /\
    exists config opts,
      In (ECall (NewManager config opts) None) (trace s) /\
      Client (reconciler b) = GetClient {| mgrConfig := config; mgrOptions := opts |}.
Proof.
  cbv zeta. unfold exec.
  destruct (process_cases w args) as (f & sch & tr & Htr & [[_ ->] | [_ ->]]).
  - exact (boot_staffed w f sch tr Htr).
  - intros b [].
Qed.

(** X8: without a kubeconfig nothing is built. A configured process that
    finds no kubeconfig exits with status 1 before it constructs a manager:
    it makes no call after those of [init] and registers nothing; the
    profiler, which [main] starts first, is already running if an address
    was given. *)
Theorem missing_kubeconfig_is_fatal (w : World) (args : list (string * string))
    (cfg : Flags) :
  configuration w args = Some cfg ->
  kubeconfig w = None ->
  let s := exec (process w args) start in
  status (process w args) start = 1 /\
  (exists pre, trace s = EDie "unable to get kubeconfig" :: pre) /\
  (forall c r, In (ECall c r) (trace s) -> exists b, c = AddToScheme b) /\
  controllers s = [] /\ webhooks s = [] /\
  readyzChecks s = [] /\ healthzChecks s = [] /\
  goroutines s = sidecars cfg.
Proof.
  intros Hcfg Hk. cbv zeta. unfold status, exec.
  destruct (configured_process w args cfg Hcfg) as (sch & tr & Htr & ->).
  rewrite (boot_without_kubeconfig w cfg sch tr Hk).
  unfold exec, startProfiler, bind, read, sidecars. cbn [flags record parsed fst snd].
  rewrite Forall_forall in Htr.
  destruct (String.eqb (profilerAddress cfg) "");
    cbn [fst snd record spawn trace controllers webhooks readyzChecks healthzChecks
         goroutines parsed klog_Info go ret app negb];
    (split; [reflexivity | ]); (split; [eexists; reflexivity | ]);
    (split; [ | repeat split]);
    intros c r Hin;
    repeat (destruct Hin as [Hin | Hin]; [discriminate Hin | ]);
    destruct (Htr _ Hin) as (b & r' & E); injection E as -> _; exists b; reflexivity.
Qed.

Section Once.

Variable w : World.
Variables (f : Flags) (sch : list SchemeBuilder) (tr : list Event).
Hypothesis tr_scheme : Forall schemeEvent tr.
Hypothesis tr_stages :
  stagesIn tr = [SScheme (clusterScheme clusterv1alpha3);
                 SScheme (clusterScheme clusterv1alpha2); SScheme clientgoscheme].

Lemma boot_once : NoDup (stagesIn (trace (exec (boot w) (parsed f sch tr)))).
Proof.
  pose proof tr_scheme as Htr. pose proof tr_stages as Hst.
  apply (wp_exec (boot w) (fun s => NoDup (stagesIn (trace s)))).
  destruct (Z.eq_dec (webhookPort f) 0) as [Hport | Hport]; run;
    unfold stagesIn; cbn [flat_map app stageOf kind]; fold (stagesIn tr);
    rewrite Hst; apply distinct_NoDup; vm_compute; reflexivity.
Qed.

(** The stages attempted are the first of the plan, in order. *)
Lemma boot_planned :
  exists rest,
    plan (webhookPort f)
      = (rev (stagesIn (trace (exec (boot w) (parsed f sch tr)))) ++ rest)%list.
Proof.
  pose proof tr_scheme as Htr. pose proof tr_stages as Hst.
  apply (wp_exec (boot w)
           (fun s => exists rest,
                plan (webhookPort f) = (rev (stagesIn (trace s)) ++ rest)%list)).
  unfold plan.
  destruct (Z.eq_dec (webhookPort f) 0) as [Hport | Hport];
    [ rewrite Hport | rewrite (proj2 (Z.eqb_neq _ _) Hport) ];
    run;
    unfold stagesIn; cbn [flat_map app stageOf kind]; fold (stagesIn tr);
    rewrite Hst; eexists; cbn; reflexivity.
Qed.

End Once.

(** X9: a process follows the plan and stops at the first failure. The
    stages that a process attempts are, in order, the first stages of the
    plan of its webhook port: the three scheme builders, the manager, the
    readiness check, the health check, then the five controllers or the
    thirteen webhooks, then the run loop. So no stage is skipped, none comes
    early and none is attempted twice: a call that failed is never made
    again. *)
Theorem process_follows_plan (w : World) (args : list (string * string)) :
  let s := exec (process w args) start in
  (exists rest,
     plan (webhookPort (flags s)) = (rev (stagesIn (trace s)) ++ rest)%list) /\
  NoDup (stagesIn (trace s)).
Proof.
  cbv zeta. unfold exec.
  destruct (process_cases_init w args) as (f & tr & Htr & Hst & [[Hf E] | [_ ->]]).
  - rewrite E. split; [ | exact (boot_once w f _ tr Htr Hst)].
    assert (Hfl : flags (fst (boot w (parsed f (filter (accepted w) builders) tr))) = f).
    { apply (wp_exec (boot w) (fun s => flags s = f)).
      apply stable_flags_boot. reflexivity. }
    rewrite Hfl. exact (boot_planned w f _ tr Htr Hst).
  - cbn [fst trace flags parsed]. rewrite Hst. split.
    + unfold plan. eexists. cbn [map builders app rev]. reflexivity.
    + apply distinct_NoDup. reflexivity.
Qed.

(** X10: the client of the manager is the split client. The factory given
    to every manager that a process constructs fails exactly when
    [client.New] fails, with its error, and otherwise gives a client whose
    reads are served by the cache it was handed and whose writes and status
    writes go to the direct client of the given configuration. *)
Theorem manager_uses_split_client (w : World) (args : list (string * string)) :
  forall config opts r,
    In (ECall (NewManager config opts) r) (trace (exec (process w args) start)) ->
    forall cache config' options,
      match NewClient opts cache config' options with
      | inr err => client_New w config' options = Some err
      | inl dc =>
          client_New w config' options = None /\
          (forall op, classOf op = ReadOp -> serve dc op = ServedByCache cache) /\
          (forall op, classOf op <> ReadOp ->
             serve dc op = ServedByStore (DirectClient config' options))
      end.
Proof.
  intros config opts r Hin cache config' options.
  assert (Hnc : NewClient opts = newClientFunc w).
  { unfold exec in Hin.
    destruct (process_cases_init w args) as (f & tr & Htr & _ & [[_ E] | [_ E]]);
      rewrite E in Hin.
    - pose proof (boot_allWired w f tr Htr) as H. unfold allWired, exec in H.
      rewrite Forall_forall in H.
      destruct (H _ Hin config opts r eq_refl) as (_ & _ & _ & _ & _ & _ & Hn & _).
      exact Hn.
    - exfalso. cbn [fst trace parsed] in Hin. rewrite Forall_forall in Htr.
      destruct (Htr _ Hin) as (b & r' & E'). discriminate E'. }
  rewrite Hnc. unfold newClientFunc.
  destruct (client_New w config' options) as [err | ]; [reflexivity | ].
  split; [reflexivity | split].
  - intros op Hop. unfold serve. rewrite Hop. reflexivity.
  - intros op Hop. unfold serve.
    destruct (classOf op); [contradiction | reflexivity | reflexivity].
Qed.

(** ** These theorems at work *)


(** The webhook port given twice: the second value is the one kept. *)
Lemma given_flags_set_variables_witness :
  ParseInt calm "9443"
    = Some (webhookPort (set_metricsAddr ":9090" (set_webhookPort 9443 defaults))).
Proof.
  assert (Hcfg : configuration calm
                   ([("webhook-port", "1")] ++ ("webhook-port", "9443")
                    :: [("metrics-addr", ":9090")])
                 = Some (set_metricsAddr ":9090" (set_webhookPort 9443 defaults)))
    by (vm_compute; reflexivity).
  assert (Hn : ~ In "webhook-port" (map fst [("metrics-addr", ":9090")]))
    by absent.
  destruct (given_flags_set_variables calm _ _ _ _ _ Hcfg Hn)
    as (_ & _ & _ & _ & _ & _ & _ & _ & _ & _ & H & _).
  exact (H eq_refl).
Defined.

(** A process that reaches the run loop has both checks. *)
Lemma checks_come_first_witness :
  readyzChecks (exec (process calm []) start) = [("ping", healthz_Ping)] /\
  healthzChecks (exec (process calm []) start) = [("ping", healthz_Ping)].
Proof.
  destruct (checks_come_first calm []) as (_ & _ & _ & H).
  apply H. right. right. apply startedb_started. vm_compute. reflexivity.
Defined.


(** The manager of a process started with webhook port 9443. *)
Lemma manager_built_from_configuration_witness :
  Port (optionsOf calm (set_webhookPort 9443 defaults) calmScheme) = 9443 /\
  Scheme (optionsOf calm (set_webhookPort 9443 defaults) calmScheme)
    = filter (accepted calm) builders.
Proof.
  assert (Hcfg : configuration calm webhookArgs = Some (set_webhookPort 9443 defaults))
    by (vm_compute; reflexivity).
  assert (Hin : In (ECall (NewManager calmConfig
                             (optionsOf calm (set_webhookPort 9443 defaults) calmScheme)) None)
                   (trace (exec (process calm webhookArgs) start)))
    by (vm_compute; pick).
  destruct (manager_built_from_configuration calm webhookArgs _ Hcfg) as [_ H].
  destruct (H _ _ _ Hin) as (_ & Hs & _ & _ & _ & _ & _ & Hp & _).
  split; [exact Hp | exact Hs].
Defined.

(** The machine-set controller of a process started without a flag. *)
Lemma controllers_staffed_by_manager_witness :
  let b := {| reconciler :=
                reconcilerOf MachineSetReconciler "MachineSet" (managerOf calm defaults);
              options := concurrency 10 |} in
  Log (reconciler b) = ["controllers"; "MachineSet"] /\
  exists config opts,
    In (ECall (NewManager config opts) None) (trace (exec (process calm []) start)) /\
    Client (reconciler b) = GetClient {| mgrConfig := config; mgrOptions := opts |}.
Proof.
  cbv zeta. apply (controllers_staffed_by_manager calm []). vm_compute. pick.
Defined.

(** A process with a profiler address and no kubeconfig. *)
Lemma missing_kubeconfig_is_fatal_witness :
  status (process noKubeconfig profilerArgs) start = 1 /\
  goroutines (exec (process noKubeconfig profilerArgs) start) = [ProfilerEndpoint] /\
  controllers (exec (process noKubeconfig profilerArgs) start) = [].
Proof.
  assert (Hcfg : configuration noKubeconfig profilerArgs
                 = Some (set_profilerAddress "localhost:6060" defaults))
    by (vm_compute; reflexivity).
  destruct (missing_kubeconfig_is_fatal noKubeconfig profilerArgs _ Hcfg eq_refl)
    as (Hs & _ & _ & Hc & _ & _ & _ & Hg).
  split; [exact Hs | split; [exact Hg | exact Hc]].
Defined.

(** The factory of the manager of a process started with webhook port 9443. *)
Lemma manager_uses_split_client_witness :
  match NewClient (optionsOf calm (set_webhookPort 9443 defaults) calmScheme)
          (InformerCache 0) calmConfig {| optScheme := calmScheme |} with
  | inr err => False
  | inl dc => serve dc List = ServedByCache (InformerCache 0)
  end.
Proof.
  assert (Hin : In (ECall (NewManager calmConfig
                             (optionsOf calm (set_webhookPort 9443 defaults) calmScheme)) None)
                   (trace (exec (process calm webhookArgs) start)))
    by (vm_compute; pick).
  pose proof (manager_uses_split_client calm webhookArgs _ _ _ Hin
                (InformerCache 0) calmConfig {| optScheme := calmScheme |}) as H.
  cbn in H |- *. destruct H as (_ & Hr & _). exact (Hr List eq_refl).
Defined.
